(** * Code churn reports: the commit-log parser, the merge-aware line
      counter and the report writer

    A shallow embedding of [src/scripts/code_churn.py] (module [code_churn])
    and of [src/code_churn_v2.py] (module [code_churn_v2]), with the Python
    built-ins they call (module [Py]) and the effects they perform (module
    [Eff]: logging calls, subprocess calls, files written, exceptions). *)

From Stdlib Require Import String Ascii List ZArith NArith Bool Lia.
From Stdlib Require Import Sorted Permutation.
Import ListNotations.

Local Open Scope string_scope.
Local Open Scope list_scope.
Local Open Scope Z_scope.

(** ** The Python built-ins used by the scripts

    A [str] is a sequence of code points; the embedding covers the code
    points below 256, the characters of [ascii].  The character classes
    below are the ones of CPython restricted to that range. *)

Module Py.

Definition code (c : ascii) : N := N_of_ascii c.

Definition code_in (cs : list N) (c : ascii) : bool :=
  existsb (N.eqb (code c)) cs.

(** The line boundaries of [str.splitlines]: LF, VT, FF, CR, FS, GS, RS
    and NEL; CR LF counts as one boundary. *)
Definition is_line_boundary : ascii -> bool :=
  code_in [10; 11; 12; 13; 28; 29; 30; 133]%N.

(** [str.isspace], the whitespace of [str.strip()] and [str.split()]. *)
Definition isspace : ascii -> bool :=
  code_in [9; 10; 11; 12; 13; 28; 29; 30; 31; 32; 133; 160]%N.

(** The whitespace [int] skips around a literal: it leaves out FS, GS, RS
    and US, which [str.isspace] accepts. *)
Definition int_isspace : ascii -> bool :=
  code_in [9; 10; 11; 12; 13; 32; 133; 160]%N.

Definition is_empty (s : string) : bool :=
  match s with EmptyString => true | String _ _ => false end.

(** [s.startswith(p)] *)
Definition startswith (s p : string) : bool := String.prefix p s.

(** [s.splitlines()] *)
Fixpoint splitlines (s : string) : list string :=
  match s with
  | EmptyString => []
  | String c rest =>
      if is_line_boundary c then
        match rest with
        | String c' rest' =>
            if ((code c =? 13) && (code c' =? 10))%N
            then EmptyString :: splitlines rest'
            else EmptyString :: splitlines rest
        | EmptyString => [EmptyString]
        end
      else
        match splitlines rest with
        | line :: lines => String c line :: lines
        | [] => [String c EmptyString]
        end
  end.

(** [s.split(sep, maxsplit)] for a separator of one character;
    [maxsplit = None] is Python's default, no limit. *)
Fixpoint split (sep : ascii) (maxsplit : option nat) (s : string)
  : list string :=
  match s with
  | EmptyString => [EmptyString]
  | String c rest =>
      let cut :=
        Ascii.eqb c sep &&
        match maxsplit with Some O => false | _ => true end in
      if cut then
        EmptyString :: split sep (option_map Nat.pred maxsplit) rest
      else
        match split sep maxsplit rest with
        | part :: parts => String c part :: parts
        | [] => [String c EmptyString]
        end
  end.

(** [s.lstrip], [s.rstrip] and [s.strip] over a character class. *)
Fixpoint lstrip_class (p : ascii -> bool) (s : string) : string :=
  match s with
  | EmptyString => EmptyString
  | String c rest => if p c then lstrip_class p rest else s
  end.

Fixpoint rstrip_class (p : ascii -> bool) (s : string) : string :=
  match s with
  | EmptyString => EmptyString
  | String c rest =>
      let rest' := rstrip_class p rest in
      if is_empty rest' && p c then EmptyString else String c rest'
  end.

Definition strip_class (p : ascii -> bool) (s : string) : string :=
  rstrip_class p (lstrip_class p s).

Definition char_in (chars : string) (c : ascii) : bool :=
  existsb (Ascii.eqb c) (list_ascii_of_string chars).

(** [s.strip(chars)] *)
Definition strip (chars s : string) : string := strip_class (char_in chars) s.

(** [s.strip()] *)
Definition strip_ws (s : string) : string := strip_class isspace s.

(** [s.split()]: the maximal runs of characters that are not whitespace. *)
Fixpoint split_ws (s : string) : list string :=
  match s with
  | EmptyString => []
  | String c rest =>
      if isspace c then split_ws rest
      else
        match rest with
        | EmptyString => [String c EmptyString]
        | String c' _ =>
            if isspace c' then String c EmptyString :: split_ws rest
            else
              match split_ws rest with
              | word :: words => String c word :: words
              | [] => [String c EmptyString]
              end
        end
  end.

(** [int(s)] in base 10: optional whitespace, an optional sign, then decimal
    digits in which single underscores may separate digits.  [None] stands
    for [ValueError].  CPython 3.11 also refuses literals of more than
    [int_max_str_digits] digits (the default of
    [sys.get_int_max_str_digits()]). *)
Definition int_max_str_digits : nat := 4300.

Definition digit_value (c : ascii) : option Z :=
  let n := code c in
  if ((48 <=? n) && (n <=? 57))%N then Some (Z.of_N (n - 48)) else None.

Fixpoint int_digits (s : string) (acc : Z) (ndigits : nat) (after_digit : bool)
  : option (Z * nat) :=
  match s with
  | EmptyString => if after_digit then Some (acc, ndigits) else None
  | String c rest =>
      match digit_value c with
      | Some d => int_digits rest (10 * acc + d) (S ndigits) true
      | None =>
          if Ascii.eqb c "_" && after_digit
          then int_digits rest acc ndigits false
          else None
      end
  end.

Definition int (s : string) : option Z :=
  let t := strip_class int_isspace s in
  let '(negative, body) :=
    match t with
    | String c rest =>
        if Ascii.eqb c "-" then (true, rest)
        else if Ascii.eqb c "+" then (false, rest)
        else (false, t)
    | EmptyString => (false, t)
    end in
  match int_digits body 0 0 false with
  | Some (v, n) =>
      if (int_max_str_digits <? n)%nat then None
      else Some (if negative then - v else v)
  | None => None
  end.

End Py.

(** ** Effects: exceptions, logging calls, subprocesses and files *)

Module Eff.

(** The exception classes the scripts can meet.  Each derives from
    [Exception], so [except Exception] catches all of them.
    [KeyboardInterrupt] and [SystemExit], which do not and which arrive
    asynchronously, are outside the embedding. *)
Inductive exc_class : Type :=
| Exception | IndexError | OSError | UnicodeDecodeError.

Record exception : Type := Exc { class : exc_class; str : string }.

Inductive outcome (A : Type) : Type :=
| Return (a : A)
| Raise (e : exception).
Arguments Return {A} a.
Arguments Raise {A} e.

(** Logging calls.  A message is kept as the pieces of its f-string. *)
Inductive level : Type := DEBUG | INFO | WARNING | ERROR.

Inductive value : Type := VStr (s : string) | VInt (z : Z).

Inductive frag : Type :=
| Lit (s : string)
| Fmt (v : value)
| FmtDict (d : list (string * value)).

Definition log_record : Type := (level * list frag)%type.

(** The object [subprocess.run] returns, with [stdout] and [stderr] as
    [.decode('utf-8')] gives them: the text, or the [UnicodeDecodeError]. *)
Record CompletedProcess : Type := {
  returncode : Z;
  stdout : outcome string;
  stderr : outcome string
}.

(** The state outside the process: the subprocess calls made so far, oldest
    first, and the CSV files written, as rows of cells. *)
Definition row : Type := list value.

Record ext : Type := {
  calls : list (list string);
  files : list (string * list row)
}.

Fixpoint lookup_file (fs : list (string * list row)) (name : string)
  : option (list row) :=
  match fs with
  | [] => None
  | (n, rows) :: fs' => if String.eqb n name then Some rows
                        else lookup_file fs' name
  end.

Fixpoint update_file (fs : list (string * list row)) (name : string)
  (rows : list row) : list (string * list row) :=
  match fs with
  | [] => [(name, rows)]
  | (n, old) :: fs' => if String.eqb n name then (n, rows) :: fs'
                       else (n, old) :: update_file fs' name rows
  end.

Definition read_file (w : ext) (name : string) : option (list row) :=
  lookup_file (files w) name.

(** What the operating system answers: the result of [subprocess.run] on an
    argument vector, given the calls made before it, and whether
    [open(name, 'w')] raises. *)
Record environment : Type := {
  run_process : list (list string) -> list string -> outcome CompletedProcess;
  open_error : string -> option exception
}.

(** A computation starts from an outside state and gives a result, the
    outside state it leaves and the logging calls it made, in order. *)
Record run (A : Type) : Type := Run {
  result : outcome A;
  world : ext;
  logged : list log_record
}.
Arguments Run {A} result world logged.
Arguments result {A} r.
Arguments world {A} r.
Arguments logged {A} r.

Definition M (A : Type) : Type := ext -> run A.

Definition ret {A} (a : A) : M A := fun w => Run (Return a) w [].

Definition raise {A} (e : exception) : M A := fun w => Run (Raise e) w [].

Definition lift {A} (o : outcome A) : M A := fun w => Run o w [].

Definition bind {A B} (m : M A) (k : A -> M B) : M B :=
  fun w =>
    match m w with
    | Run (Return a) w1 l1 =>
        match k a w1 with Run o w2 l2 => Run o w2 (l1 ++ l2) end
    | Run (Raise e) w1 l1 => Run (Raise e) w1 l1
    end.

(** [try: body except Exception as e: handler e] *)
Definition try_except {A} (body : M A) (handler : exception -> M A) : M A :=
  fun w =>
    match body w with
    | Run (Return a) w1 l1 => Run (Return a) w1 l1
    | Run (Raise e) w1 l1 =>
        match handler e w1 with Run o w2 l2 => Run o w2 (l1 ++ l2) end
    end.

Definition logging (lvl : level) (msg : list frag) : M unit :=
  fun w => Run (Return tt) w [(lvl, msg)].

(** [subprocess.run(argv, stdout=PIPE, stderr=PIPE)] *)
Definition subprocess_run (os : environment) (argv : list string)
  : M CompletedProcess :=
  fun w =>
    Run (run_process os (calls w) argv)
        {| calls := calls w ++ [argv]; files := files w |} [].

Definition set_file (name : string) (rows : list row) (w : ext) : ext :=
  {| calls := calls w; files := update_file (files w) name rows |}.

(** [open(name, mode='w', newline='')]: the file is created or truncated. *)
Definition open_w (os : environment) (name : string) : M unit :=
  fun w =>
    match open_error os name with
    | Some e => Run (Raise e) w []
    | None => Run (Return tt) (set_file name [] w) []
    end.

(** [csv.writer(file).writerow(cells)] on the file opened under [name]. *)
Definition writerow (name : string) (cells : row) : M unit :=
  fun w =>
    let rows := match read_file w name with Some rs => rs | None => [] end in
    Run (Return tt) (set_file name (rows ++ [cells]) w) [].

(** [parts[i]] *)
Definition getitem {A} (l : list A) (i : nat) : M A :=
  match nth_error l i with
  | Some x => ret x
  | None => raise (Exc IndexError "list index out of range")
  end.

(** [for x in xs: s = body(s, x)] *)
Fixpoint for_each {A S} (body : S -> A -> M S) (xs : list A) (s : S) : M S :=
  match xs with
  | [] => ret s
  | x :: xs' => bind (body s x) (for_each body xs')
  end.

Declare Scope py_scope.
Delimit Scope py_scope with py.
Notation "x <- m ;; k" := (bind m (fun x => k))
  (at level 61, m at next level, right associativity) : py_scope.
Notation "m ;; k" := (bind m (fun _ => k))
  (at level 61, right associativity) : py_scope.

End Eff.

(** [list.sort(key=...)] with string keys: a stable sort that compares keys
    with [<] only. *)
Module PySort.

Section ByKey.
Context {A : Type} (key : A -> string).

Fixpoint insert (x : A) (l : list A) : list A :=
  match l with
  | [] => [x]
  | y :: l' =>
      if String.ltb (key y) (key x) then y :: insert x l' else x :: y :: l'
  end.

Fixpoint sort (l : list A) : list A :=
  match l with
  | [] => []
  | x :: l' => insert x (sort l')
  end.

End ByKey.

End PySort.

(** ** [src/scripts/code_churn.py] *)

Module code_churn.
Import Py Eff.
Local Open Scope py_scope.

(** The dictionary [commit_info] as a header builds it (three keys) and as
    it is appended to [commit_data] (five keys). *)
Record header : Type := {
  h_commit_id : string;
  h_date : string;
  h_message : string
}.

Record commit : Type := {
  commit_id : string;
  date : string;
  message : string;
  added_lines : Z;
  removed_lines : Z
}.

Definition header_dict (h : header) : list (string * value) :=
  [("commit_id", VStr (h_commit_id h)); ("date", VStr (h_date h));
   ("message", VStr (h_message h))].

Definition commit_dict (c : commit) : list (string * value) :=
  [("commit_id", VStr (commit_id c)); ("date", VStr (date c));
   ("message", VStr (message c)); ("added_lines", VInt (added_lines c));
   ("removed_lines", VInt (removed_lines c))].

Definition safe_int (value : string) : Z :=
  match int value with
  | Some n => n
  | None => 0
  end.

(** The variables of the loop of [parse_git_log]; [commit_info = None] is
    the empty dictionary, the only one that is false in [if commit_info:]. *)
Record loop_state : Type := {
  commit_data : list commit;
  commit_info : option header;
  total_added : Z;
  total_removed : Z
}.

Definition store (h : header) (added removed : Z) : commit :=
  {| commit_id := h_commit_id h; date := h_date h; message := h_message h;
     added_lines := added; removed_lines := removed |}.

(** The body of [for line in commit_lines:]. *)
Definition loop_body (st : loop_state) (line : string) : M loop_state :=
  if startswith line "'" then
    data <- match commit_info st with
            | Some h =>
                let c := store h (total_added st) (total_removed st) in
                let data := commit_data st ++ [c] in
                logging DEBUG [Lit "Stored commit: "; FmtDict (commit_dict c)] ;;
                ret data
            | None => ret (commit_data st)
            end ;;
    let parts := split "," (Some 3%nat) (strip "'" line) in
    p0 <- getitem parts 0 ;;
    p1 <- getitem parts 1 ;;
    p2 <- getitem parts 2 ;;
    let h := {| h_commit_id := p0; h_date := p1; h_message := p2 |} in
    logging DEBUG [Lit "Parsed commit header: "; FmtDict (header_dict h)] ;;
    ret {| commit_data := data; commit_info := Some h;
           total_added := 0; total_removed := 0 |}
  else
    match split "009" None line with
    | [p0; p1; p2] =>
        let added := safe_int p0 in
        let removed := safe_int p1 in
        let file_name := p2 in
        logging DEBUG [Lit "File changed: "; Fmt (VInt added); Lit " added, ";
                       Fmt (VInt removed); Lit " removed, ";
                       Fmt (VStr file_name)] ;;
        ret {| commit_data := commit_data st; commit_info := commit_info st;
               total_added := total_added st + added;
               total_removed := total_removed st + removed |}
    | _ =>
        logging WARNING [Lit "Skipping malformed line: "; Fmt (VStr line)] ;;
        ret st
    end.

Definition initial : loop_state :=
  {| commit_data := []; commit_info := None;
     total_added := 0; total_removed := 0 |}.

(** The code after the loop: the last commit is stored. *)
Definition finish (st : loop_state) : M (list commit) :=
  data <- match commit_info st with
          | Some h =>
              ret (commit_data st
                   ++ [store h (total_added st) (total_removed st)])
          | None => ret (commit_data st)
          end ;;
  logging INFO [Lit "Parsed "; Fmt (VInt (Z.of_nat (length data)));
                Lit " commits."] ;;
  ret data.

Definition parse_lines (commit_lines : list string) : M (list commit) :=
  st <- for_each loop_body commit_lines initial ;;
  finish st.

Definition parse_git_log (git_log_output : string) : M (list commit) :=
  parse_lines (splitlines git_log_output).

Definition csv_header : row :=
  [VStr "commit_id"; VStr "date"; VStr "message"; VStr "added_lines";
   VStr "removed_lines"].

Definition csv_row (c : commit) : row :=
  [VStr (commit_id c); VStr (date c); VStr (message c);
   VInt (added_lines c); VInt (removed_lines c)].

Definition git_log_command (since_date : string) : list string :=
  ["git"; "log"; "--since"; since_date;
   "--pretty=format:'%H,%ad,%s'"; "--numstat"].

Section Script.
Variable os : environment.

Definition get_git_log (since_date : string) : M string :=
  try_except
    (logging INFO [Lit "Fetching git log since "; Fmt (VStr since_date)] ;;
     result <- subprocess_run os (git_log_command since_date) ;;
     if negb (returncode result =? 0) then
       err <- lift (stderr result) ;;
       logging ERROR [Lit "Error running git command: "; Fmt (VStr err)] ;;
       err <- lift (stderr result) ;;
       raise (Exc Exception ("Error running git command: " ++ err))
     else
       logging INFO [Lit "Successfully fetched git log."] ;;
       lift (stdout result))
    (fun e =>
       logging ERROR [Lit "Failed to fetch git log: "; Fmt (VStr (str e))] ;;
       raise e).

Definition save_to_csv (commit_data : list commit) (file_name : string)
  : M unit :=
  try_except
    (logging INFO [Lit "Saving commit data to "; Fmt (VStr file_name)] ;;
     open_w os file_name ;;
     writerow file_name csv_header ;;
     for_each (fun _ c => writerow file_name (csv_row c)) commit_data tt ;;
     logging INFO [Lit "Data successfully saved to "; Fmt (VStr file_name)])
    (fun e =>
       logging ERROR [Lit "Error saving data to CSV: "; Fmt (VStr (str e))] ;;
       raise e).

(** [main], given the date [default_period.strftime("%Y-%m-%d")] that the
    module computed from the clock when it was loaded. *)
Definition main (since_date : string) : M unit :=
  try_except
    (logging INFO [Lit "Using default period: "; Fmt (VStr since_date)] ;;
     git_log_output <- get_git_log since_date ;;
     commit_data <- parse_git_log git_log_output ;;
     save_to_csv commit_data "commit_churn.csv")
    (fun e => logging ERROR [Lit "Script failed: "; Fmt (VStr (str e))]).

End Script.

End code_churn.

(** ** [src/code_churn_v2.py] *)

Module code_churn_v2.
Import Py Eff.
Local Open Scope py_scope.

Record header : Type := {
  h_commit_id : string;
  h_date : string;
  h_message : string
}.

(** The dictionary once it is stored: six keys. *)
Record commit : Type := {
  commit_id : string;
  date : string;
  message : string;
  added_lines : Z;
  removed_lines : Z;
  modified_lines : Z
}.

Definition header_dict (h : header) : list (string * value) :=
  [("commit_id", VStr (h_commit_id h)); ("date", VStr (h_date h));
   ("message", VStr (h_message h))].

Definition commit_dict (c : commit) : list (string * value) :=
  [("commit_id", VStr (commit_id c)); ("date", VStr (date c));
   ("message", VStr (message c)); ("added_lines", VInt (added_lines c));
   ("removed_lines", VInt (removed_lines c));
   ("modified_lines", VInt (modified_lines c))].

Definition safe_int (value : string) : Z :=
  match int value with
  | Some n => n
  | None => 0
  end.

Record loop_state : Type := {
  commit_data : list commit;
  commit_info : option header;
  total_added : Z;
  total_removed : Z
}.

Definition initial : loop_state :=
  {| commit_data := []; commit_info := None;
     total_added := 0; total_removed := 0 |}.

Definition csv_header : row :=
  [VStr "commit_id"; VStr "date"; VStr "message"; VStr "added_lines";
   VStr "removed_lines"; VStr "modified_lines"].

Definition csv_row (c : commit) : row :=
  [VStr (commit_id c); VStr (date c); VStr (message c);
   VInt (added_lines c); VInt (removed_lines c); VInt (modified_lines c)].

(** The loop over [diff_output.splitlines()] in [get_modified_lines]. *)
Definition count_modified (modified_lines : Z) (line : string) : Z :=
  match split "009" None line with
  | [added; removed; _] => modified_lines + (safe_int added + safe_int removed)
  | _ => modified_lines
  end.

Definition merge_check_command (commit_id : string) : list string :=
  ["git"; "show"; "--no-patch"; "--pretty=%P"; commit_id].

Definition merge_diff_command (commit_id : string) : list string :=
  ["git"; "diff"; "--numstat"; (commit_id ++ "^1.." ++ commit_id ++ "^2")%string].

Definition parent_diff_command (commit_id : string) : list string :=
  ["git"; "diff"; "--numstat"; (commit_id ++ "^")%string].

Definition git_log_command (branch start_date end_date : string)
  : list string :=
  ["git"; "log"; branch; "--since"; start_date; "--until"; end_date;
   "--pretty=format:'%H,%ad,%s'"; "--numstat"].

Section Script.
Variable os : environment.

Definition get_modified_lines (commit_id : string) : M Z :=
  try_except
    (result <- subprocess_run os (merge_check_command commit_id) ;;
     if negb (returncode result =? 0) then
       err <- lift (stderr result) ;;
       logging ERROR [Lit "Error checking commit for merge status: ";
                      Fmt (VStr err)] ;;
       ret 0
     else
       out <- lift (stdout result) ;;
       let parent_commits := strip_ws out in
       let diff_command :=
         if (length (split_ws parent_commits) =? 2)%nat
         then merge_diff_command commit_id
         else parent_diff_command commit_id in
       result <- subprocess_run os diff_command ;;
       if negb (returncode result =? 0) then
         err <- lift (stderr result) ;;
         logging ERROR [Lit "Error running diff command for commit ";
                        Fmt (VStr commit_id); Lit ": "; Fmt (VStr err)] ;;
         ret 0
       else
         diff_output <- lift (stdout result) ;;
         let modified_lines :=
           fold_left count_modified (splitlines diff_output) 0 in
         logging DEBUG [Lit "Modified lines in commit "; Fmt (VStr commit_id);
                        Lit ": "; Fmt (VInt modified_lines)] ;;
         ret modified_lines)
    (fun e =>
       logging ERROR [Lit "Error getting modified lines for commit ";
                      Fmt (VStr commit_id); Lit ": "; Fmt (VStr (str e))] ;;
       ret 0).

Definition get_git_log (branch start_date end_date : string) : M string :=
  try_except
    (logging INFO [Lit "Fetching git log for branch "; Fmt (VStr branch);
                   Lit " from "; Fmt (VStr start_date); Lit " to ";
                   Fmt (VStr end_date)] ;;
     result <- subprocess_run os
                 (git_log_command branch start_date end_date) ;;
     if negb (returncode result =? 0) then
       err <- lift (stderr result) ;;
       logging ERROR [Lit "Error running git command: "; Fmt (VStr err)] ;;
       err <- lift (stderr result) ;;
       raise (Exc Exception ("Error running git command: " ++ err))
     else
       logging INFO [Lit "Successfully fetched git log."] ;;
       lift (stdout result))
    (fun e =>
       logging ERROR [Lit "Failed to fetch git log: "; Fmt (VStr (str e))] ;;
       raise e).

(** The three assignments that complete [commit_info] before it is
    appended. *)
Definition store (h : header) (added removed : Z) : M commit :=
  modified <- get_modified_lines (h_commit_id h) ;;
  ret {| commit_id := h_commit_id h; date := h_date h; message := h_message h;
         added_lines := added; removed_lines := removed;
         modified_lines := modified |}.

(** The body of [for line in commit_lines:]. *)
Definition loop_body (st : loop_state) (line : string) : M loop_state :=
  if startswith line "'" then
    data <- match commit_info st with
            | Some h =>
                c <- store h (total_added st) (total_removed st) ;;
                let data := commit_data st ++ [c] in
                logging DEBUG [Lit "Stored commit: "; FmtDict (commit_dict c)] ;;
                ret data
            | None => ret (commit_data st)
            end ;;
    let parts := split "," (Some 3%nat) (strip "'" line) in
    p0 <- getitem parts 0 ;;
    p1 <- getitem parts 1 ;;
    p2 <- getitem parts 2 ;;
    let h := {| h_commit_id := p0; h_date := p1; h_message := p2 |} in
    logging DEBUG [Lit "Parsed commit header: "; FmtDict (header_dict h)] ;;
    ret {| commit_data := data; commit_info := Some h;
           total_added := 0; total_removed := 0 |}
  else
    match split "009" None line with
    | [p0; p1; p2] =>
        let added := safe_int p0 in
        let removed := safe_int p1 in
        let file_name := p2 in
        logging DEBUG [Lit "File changed: "; Fmt (VInt added); Lit " added, ";
                       Fmt (VInt removed); Lit " removed, ";
                       Fmt (VStr file_name)] ;;
        ret {| commit_data := commit_data st; commit_info := commit_info st;
               total_added := total_added st + added;
               total_removed := total_removed st + removed |}
    | _ =>
        logging WARNING [Lit "Skipping malformed line: "; Fmt (VStr line)] ;;
        ret st
    end.

(** The code after the loop: the last commit is stored. *)
Definition finish (st : loop_state) : M (list commit) :=
  data <- match commit_info st with
          | Some h =>
              c <- store h (total_added st) (total_removed st) ;;
              ret (commit_data st ++ [c])
          | None => ret (commit_data st)
          end ;;
  logging INFO [Lit "Parsed "; Fmt (VInt (Z.of_nat (length data)));
                Lit " commits."] ;;
  ret data.

Definition parse_lines (commit_lines : list string) : M (list commit) :=
  st <- for_each loop_body commit_lines initial ;;
  finish st.

Definition parse_git_log (git_log_output : string) : M (list commit) :=
  parse_lines (splitlines git_log_output).

Definition save_to_csv (commit_data : list commit) (file_name : string)
  : M unit :=
  try_except
    (logging INFO [Lit "Saving commit data to "; Fmt (VStr file_name)] ;;
     let commit_data := PySort.sort date commit_data in
     open_w os file_name ;;
     writerow file_name csv_header ;;
     for_each (fun _ c => writerow file_name (csv_row c)) commit_data tt ;;
     logging INFO [Lit "Data successfully saved to "; Fmt (VStr file_name)])
    (fun e =>
       logging ERROR [Lit "Error saving data to CSV: "; Fmt (VStr (str e))] ;;
       raise e).

(** The result of [parse_arguments()]; [main] is taken after it and after
    [setup_logging]. *)
Record Namespace : Type := {
  branch : string;
  start_date : string;
  end_date : string
}.

Definition main (args : Namespace) : M unit :=
  try_except
    (git_log_output <- get_git_log (branch args) (start_date args)
                                   (end_date args) ;;
     commit_data <- parse_git_log git_log_output ;;
     save_to_csv commit_data
       (branch args ++ "_" ++ start_date args ++ "_" ++ end_date args
        ++ "_commit_churn.csv")%string)
    (fun e => logging ERROR [Lit "Script failed: "; Fmt (VStr (str e))]).

End Script.

End code_churn_v2.

(** ** The notions the properties are stated with *)

Module Spec.
Import Py Eff.

Definition LF : string := String "010" EmptyString.
Definition TAB : string := String "009" EmptyString.

(** A header line starts with the quote. *)
Definition is_header (line : string) : bool := startswith line "'".

Fixpoint count_char (c : ascii) (s : string) : nat :=
  match s with
  | EmptyString => O
  | String c' rest =>
      if Ascii.eqb c' c then S (count_char c rest) else count_char c rest
  end.

(** The number of comma-separated fields of a header, quotes stripped. *)
Definition comma_fields (line : string) : nat :=
  S (count_char "," (strip "'" line)).

Definition well_formed (lines : list string) : Prop :=
  Forall (fun l => is_header l = true -> (3 <= comma_fields l)%nat) lines.

(** What a stat line counts for: the two numbers of a line of exactly three
    tab-separated fields, each 0 when it is not a number; nothing for any
    other line. *)
Definition stat_counts (line : string) : Z * Z :=
  match split "009" None line with
  | [added; removed; _] =>
      (code_churn.safe_int added, code_churn.safe_int removed)
  | _ => (0, 0)
  end.

(** A line that counts for nothing: it has not exactly three tab-separated
    fields, or neither of its first two fields is a number. *)
Definition fully_malformed (line : string) : Prop :=
  length (split "009" None line) <> 3%nat
  \/ exists a r f,
       split "009" None line = [a; r; f] /\ int a = None /\ int r = None.

Definition total (f : Z * Z -> Z) (stats : list string) : Z :=
  fold_right Z.add 0 (map (fun l => f (stat_counts l)) stats).

(** The lines up to the next header. *)
Fixpoint own_stats (lines : list string) : list string :=
  match lines with
  | [] => []
  | l :: ls => if is_header l then [] else l :: own_stats ls
  end.

(** The input as blocks: each header with the lines that follow it up to
    the next header.  Lines before the first header are in no block. *)
Fixpoint blocks (lines : list string) : list (string * list string) :=
  match lines with
  | [] => []
  | l :: ls => if is_header l then (l, own_stats ls) :: blocks ls
               else blocks ls
  end.

Definition header_count (lines : list string) : nat :=
  length (filter is_header lines).

(** The i-th field that the parser reads from a header. *)
Definition field (i : nat) (line : string) : string :=
  nth i (split "," (Some 3%nat) (strip "'" line)) EmptyString.

(** The record of a block: the fields of its header and the totals of its
    own lines. *)
Definition block_commit (b : string * list string) : code_churn.commit :=
  {| code_churn.commit_id := field 0 (fst b);
     code_churn.date := field 1 (fst b);
     code_churn.message := field 2 (fst b);
     code_churn.added_lines := total fst (snd b);
     code_churn.removed_lines := total snd (snd b) |}.

(** A record of [code_churn_v2] without its [modified_lines]. *)
Definition forget (c : code_churn_v2.commit) : code_churn.commit :=
  {| code_churn.commit_id := code_churn_v2.commit_id c;
     code_churn.date := code_churn_v2.date c;
     code_churn.message := code_churn_v2.message c;
     code_churn.added_lines := code_churn_v2.added_lines c;
     code_churn.removed_lines := code_churn_v2.removed_lines c |}.

(** A header as the log format writes it: id, date and subject between
    quotes. *)
Definition header_line (id date subject : string) : string :=
  ("'" ++ id ++ "," ++ date ++ "," ++ subject ++ "'")%string.





(** The parents in the answer to the merge check. *)
Definition parents (out : string) : list string := split_ws (strip_ws out).


(** A subprocess step fails when [subprocess.run] raises, when the exit
    status is not 0, or when its output cannot be decoded. *)
Definition step_fails (o : outcome CompletedProcess) : bool :=
  match o with
  | Raise _ => true
  | Return p =>
      negb (returncode p =? 0)
      || match stdout p with Raise _ => true | Return _ => false end
  end.

Definition diff_command (commit_id out : string) : list string :=
  if (length (parents out) =? 2)%nat
  then code_churn_v2.merge_diff_command commit_id
  else code_churn_v2.parent_diff_command commit_id.

(** Some step of [get_modified_lines] fails: the merge check, or the diff
    it leads to. *)
Definition some_step_fails (os : environment) (commit_id : string) (w : ext)
  : bool :=
  let check := code_churn_v2.merge_check_command commit_id in
  match run_process os (calls w) check with
  | Return p =>
      if returncode p =? 0 then
        match stdout p with
        | Return out =>
            step_fails (run_process os (calls w ++ [check])
                                    (diff_command commit_id out))
        | Raise _ => true
        end
      else true
  | Raise _ => true
  end.

Definition is_error (r : log_record) : bool :=
  match fst r with ERROR => true | _ => false end.

(** The dictionary a header line gives. *)
Definition header_of (line : string) : code_churn.header :=
  {| code_churn.h_commit_id := field 0 line;
     code_churn.h_date := field 1 line;
     code_churn.h_message := field 2 line |}.

(** The record of the commit that is open in a loop state, once the lines
    [stats] have been counted for it too. *)
Definition pending (st : code_churn.loop_state) (stats : list string)
  : list code_churn.commit :=
  match code_churn.commit_info st with
  | Some h =>
      [code_churn.store h (code_churn.total_added st + total fst stats)
                          (code_churn.total_removed st + total snd stats)]
  | None => []
  end.

(** Loop states of the two scripts that agree up to [modified_lines]. *)
Definition same_state (st2 : code_churn_v2.loop_state)
  (st1 : code_churn.loop_state) : Prop :=
  map forget (code_churn_v2.commit_data st2) = code_churn.commit_data st1
  /\ option_map (fun h => (code_churn_v2.h_commit_id h,
                           code_churn_v2.h_date h,
                           code_churn_v2.h_message h))
                (code_churn_v2.commit_info st2)
     = option_map (fun h => (code_churn.h_commit_id h, code_churn.h_date h,
                             code_churn.h_message h))
                  (code_churn.commit_info st1)
  /\ code_churn_v2.total_added st2 = code_churn.total_added st1
  /\ code_churn_v2.total_removed st2 = code_churn.total_removed st1.

(** Results of the two scripts that agree up to [modified_lines]. *)
Definition same_result (r2 : outcome (list code_churn_v2.commit))
  (r1 : outcome (list code_churn.commit)) : Prop :=
  match r2, r1 with
  | Return c2, Return c1 => map forget c2 = c1
  | Raise e2, Raise e1 => e2 = e1
  | _, _ => False
  end.

End Spec.

(** ** Sample runs *)

Module Samples.
Import Py Eff Spec.

Definition empty_ext : ext := {| calls := []; files := [] |}.

Definition completed (rc : Z) (out err : string) : outcome CompletedProcess :=
  Return {| returncode := rc; stdout := Return out; stderr := Return err |}.

Definition sample_log : string :=
  ("'m1,Tue Jan 2 2024,merge topic'" ++ LF
   ++ "10" ++ TAB ++ "2" ++ TAB ++ "a.py" ++ LF
   ++ "1" ++ TAB ++ "0" ++ TAB ++ "b.py" ++ LF
   ++ LF
   ++ "'c0,Mon Jan 1 2024,first'" ++ LF
   ++ "7" ++ TAB ++ "0" ++ TAB ++ "a.py")%string.

(** A repository in which commit [m1] is a merge of [p1] and [p2] and every
    other commit has the one parent [p0]. *)
Definition sample_os : environment :=
  {| run_process := fun _ argv =>
       match argv with
       | ["git"; "show"; "--no-patch"; "--pretty=%P"; "m1"] =>
           completed 0 ("p1 p2" ++ LF) ""
       | ["git"; "show"; "--no-patch"; "--pretty=%P"; _] =>
           completed 0 ("p0" ++ LF) ""
       | ["git"; "diff"; "--numstat"; "m1^1..m1^2"] =>
           completed 0 ("4" ++ TAB ++ "1" ++ TAB ++ "a.py" ++ LF
                        ++ "-" ++ TAB ++ "-" ++ TAB ++ "logo.png" ++ LF) ""
       | ["git"; "diff"; "--numstat"; _] =>
           completed 0 ("2" ++ TAB ++ "3" ++ TAB ++ "b.py" ++ LF) ""
       | "git" :: "log" :: _ => completed 0 sample_log ""
       | _ => completed 128 "" "fatal: not a git repository"
       end;
     open_error := fun _ => None |}.

(** A directory that is not a repository: every command fails. *)
Definition broken_os : environment :=
  {| run_process := fun _ _ =>
       completed 128 "" "fatal: not a git repository";
     open_error := fun _ => None |}.

Definition sample_args : code_churn_v2.Namespace :=
  {| code_churn_v2.branch := "main";
     code_churn_v2.start_date := "2024-01-01";
     code_churn_v2.end_date := "2024-02-01" |}.



End Samples.

(** ** Notions for the properties of the whole scripts *)

Module Notions.
Import Py Eff Spec Samples.

Definition CR_LF : string := String "013" (String "010" EmptyString).

(** A string without any line boundary. *)
Fixpoint plain (s : string) : bool :=
  match s with
  | EmptyString => true
  | String c rest => negb (is_line_boundary c) && plain rest
  end.

(** The text of lines that each end with [eol]. *)
Fixpoint unlines (eol : string) (lines : list string) : string :=
  match lines with
  | [] => EmptyString
  | l :: ls => (l ++ eol ++ unlines eol ls)%string
  end.

(** The text before the first comma. *)
Fixpoint before_comma (s : string) : string :=
  match s with
  | EmptyString => EmptyString
  | String c rest =>
      if Ascii.eqb c "," then EmptyString else String c (before_comma rest)
  end.

Fixpoint last_char (s : string) : option ascii :=
  match s with
  | EmptyString => None
  | String c rest =>
      match rest with
      | EmptyString => Some c
      | String _ _ => last_char rest
      end
  end.

(** Every header line has its three fields, as a test. *)
Definition well_formedb (lines : list string) : bool :=
  forallb (fun l => negb (is_header l) || (3 <=? comma_fields l)%nat) lines.

(** The header dictionary and the totals of a block, as [code_churn_v2]
    passes them on when it stores the block's commit. *)
Definition item : Type := (code_churn_v2.header * Z * Z)%type.

Definition header_of_v2 (line : string) : code_churn_v2.header :=
  {| code_churn_v2.h_commit_id := field 0 line;
     code_churn_v2.h_date := field 1 line;
     code_churn_v2.h_message := field 2 line |}.

Definition block_item (b : string * list string) : item :=
  (header_of_v2 (fst b), total fst (snd b), total snd (snd b)).

(** Storing the commits one after the other, each from the outside state
    the one before left. *)
Fixpoint store_each (os : environment) (items : list item) (w : ext)
  : list code_churn_v2.commit * ext :=
  match items with
  | [] => ([], w)
  | (h, added, removed) :: rest =>
      let r := code_churn_v2.store os h added removed w in
      match result r with
      | Return c =>
          let '(cs, w') := store_each os rest (world r) in (c :: cs, w')
      | Raise _ => ([], world r)
      end
  end.

(** The commit that is open in a loop state of [code_churn_v2], once the
    lines [stats] have been counted for it too. *)
Definition pending_item (st : code_churn_v2.loop_state) (stats : list string)
  : list item :=
  match code_churn_v2.commit_info st with
  | Some h =>
      [(h, code_churn_v2.total_added st + total fst stats,
        code_churn_v2.total_removed st + total snd stats)]
  | None => []
  end.



Definition index_error : exception :=
  Exc IndexError "list index out of range".

(** A field that does not start, after the whitespace [int] skips, with a
    minus sign, and a line whose two counts are such fields. *)
Definition no_minus (s : string) : Prop :=
  forall rest, strip_class int_isspace s <> String "-" rest.

Definition unsigned_counts (line : string) : Prop :=
  forall a r f,
    split "009" None line = [a; r; f] -> no_minus a /\ no_minus r.

(** The outside state after one more subprocess call. *)
Definition fetched (w : ext) (command : list string) : ext :=
  {| calls := calls w ++ [command]; files := files w |}.




End Notions.

(** ** Runs on concrete inputs *)

Module Runs.
Import Py Eff Spec Samples.

Example splitlines_crlf :
  splitlines ("a" ++ String "013" LF ++ "b" ++ LF) = ["a"; "b"].
Proof. reflexivity. Qed.

Example splitlines_blank_line : splitlines ("a" ++ LF ++ LF ++ "b") = ["a"; ""; "b"].
Proof. reflexivity. Qed.

Example split_maxsplit : split "," (Some 3%nat) "a,b,c,d,e" = ["a"; "b"; "c"; "d,e"].
Proof. reflexivity. Qed.

Example split_empty : split "009" None "" = [""].
Proof. reflexivity. Qed.

Example strip_quotes : strip "'" "''a'b''" = "a'b".
Proof. reflexivity. Qed.

Example split_ws_parents : split_ws (strip_ws ("p1 p2" ++ LF)) = ["p1"; "p2"].
Proof. reflexivity. Qed.

Example int_literals :
  map int ["12"; " 12 "; "+5"; "-5"; "1_000"; "007"; "-"; ""; "1__0"; "abc"]
  = [Some 12; Some 12; Some 5; Some (-5); Some 1000; Some 7; None; None;
     None; None].
Proof. reflexivity. Qed.

Example sort_is_stable :
  PySort.sort fst [("b", 1); ("a", 2); ("b", 0); ("a", 1)]
  = [("a", 2); ("a", 1); ("b", 1); ("b", 0)].
Proof. reflexivity. Qed.

(** Two headers with two and one stat lines: two records, with the sums. *)
Example parse_sample_log :
  result (code_churn.parse_git_log sample_log empty_ext)
  = Return
      [{| code_churn.commit_id := "m1"; code_churn.date := "Tue Jan 2 2024";
          code_churn.message := "merge topic"; code_churn.added_lines := 11;
          code_churn.removed_lines := 2 |};
       {| code_churn.commit_id := "c0"; code_churn.date := "Mon Jan 1 2024";
          code_churn.message := "first"; code_churn.added_lines := 7;
          code_churn.removed_lines := 0 |}].
Proof. reflexivity. Qed.

Example parse_empty_log :
  result (code_churn.parse_git_log "" empty_ext) = Return [].
Proof. reflexivity. Qed.

(** A stat line whose counts are not numbers counts for 0 and 0. *)
Example parse_non_numeric_counts :
  result (code_churn.parse_git_log
            ("'c0,Mon Jan 1 2024,first'" ++ LF
             ++ "abc" ++ TAB ++ "def" ++ TAB ++ "file.txt") empty_ext)
  = Return
      [{| code_churn.commit_id := "c0"; code_churn.date := "Mon Jan 1 2024";
          code_churn.message := "first"; code_churn.added_lines := 0;
          code_churn.removed_lines := 0 |}].
Proof. reflexivity. Qed.

(** The merge [m1]: the binary file counts for 0. *)
Example modified_lines_of_merge :
  result (code_churn_v2.get_modified_lines sample_os "m1" empty_ext) = Return 5.
Proof. reflexivity. Qed.

(** The report of [code_churn_v2] on the sample repository: the older commit
    comes first. *)
Example main_v2_report :
  read_file (world (code_churn_v2.main sample_os sample_args empty_ext))
            "main_2024-01-01_2024-02-01_commit_churn.csv"
  = Some [code_churn_v2.csv_header;
          [VStr "c0"; VStr "Mon Jan 1 2024"; VStr "first";
           VInt 7; VInt 0; VInt 5];
          [VStr "m1"; VStr "Tue Jan 2 2024"; VStr "merge topic";
           VInt 11; VInt 2; VInt 5]].
Proof. reflexivity. Qed.

(** The report of [code_churn] keeps the order of the log. *)
Example main_report :
  read_file (world (code_churn.main sample_os "2024-01-01" empty_ext))
            "commit_churn.csv"
  = Some [code_churn.csv_header;
          [VStr "m1"; VStr "Tue Jan 2 2024"; VStr "merge topic";
           VInt 11; VInt 2];
          [VStr "c0"; VStr "Mon Jan 1 2024"; VStr "first"; VInt 7; VInt 0]].
Proof. reflexivity. Qed.

(** No records: the file holds the header row only. *)
Example empty_report :
  read_file (world (code_churn_v2.save_to_csv sample_os [] "out.csv" empty_ext))
            "out.csv"
  = Some [code_churn_v2.csv_header].
Proof. reflexivity. Qed.

End Runs.

(** ** Facts about the built-ins *)

Module PyFacts.
Import Py Spec.

Lemma digit_value_nonneg c d : digit_value c = Some d -> 0 <= d.
Proof.
  unfold digit_value. destruct (_ && _); [|discriminate].
  intros [= <-]. apply N2Z.is_nonneg.
Qed.

Lemma int_digits_nonneg s :
  forall acc n b v k,
    0 <= acc -> int_digits s acc n b = Some (v, k) -> 0 <= v.
Proof.
  induction s as [|c rest IH]; intros acc n b v k A; cbn [int_digits].
  - destruct b; [|discriminate]. intros [= <- _]. exact A.
  - destruct (digit_value c) as [d|] eqn:D.
    + apply IH. pose proof (digit_value_nonneg c d D). lia.
    + destruct (_ && _); [|discriminate]. apply IH. exact A.
Qed.

(** Only a literal with a minus sign gives a negative number. *)
Lemma int_negative_has_sign s v :
  int s = Some v -> v < 0 ->
  exists rest, strip_class int_isspace s = String "-" rest.
Proof.
  unfold int. destruct (strip_class int_isspace s) as [|c rest] eqn:T.
  - discriminate.
  - destruct (Ascii.eqb c "-") eqn:M.
    + apply Ascii.eqb_eq in M. subst c. intros _ _. exists rest. reflexivity.
    + intros I N. exfalso.
      destruct (Ascii.eqb c "+");
        match type of I with
        | match int_digits ?b 0 0%nat false with _ => _ end = _ =>
            destruct (int_digits b 0 0%nat false) as [[v' k]|] eqn:D;
              [|discriminate];
              apply int_digits_nonneg in D; [|lia];
              destruct (_ <? _)%nat; [discriminate|];
              injection I as <-; lia
        end.
Qed.

Lemma split_nonempty sep m s : split sep m s <> [].
Proof.
  destruct s as [|c rest]; simpl; [discriminate|].
  destruct (_ && _); [discriminate|].
  destruct (split sep m rest); discriminate.
Qed.

(** The number of parts [split] returns: one more than the separators,
    capped by [maxsplit]. *)
Lemma length_split sep s :
  forall m,
    length (split sep m s) =
    match m with
    | None => S (count_char sep s)
    | Some n => S (Nat.min n (count_char sep s))
    end.
Proof.
  induction s as [|c rest IH]; intros m; simpl.
  - destruct m as [n|]; [rewrite Nat.min_0_r|]; reflexivity.
  - destruct (Ascii.eqb c sep) eqn:E; simpl.
    + destruct m as [[|n]|]; simpl.
      * specialize (IH (Some O)). simpl in IH.
        destruct (split sep (Some O) rest); simpl in *; congruence.
      * rewrite IH. reflexivity.
      * rewrite IH. reflexivity.
    + specialize (IH m).
      destruct (split sep m rest) eqn:S; simpl in *; [|exact IH].
      destruct m; discriminate.
Qed.

Lemma length_header_parts line :
  length (split "," (Some 3%nat) (strip "'" line))
  = Nat.min 4 (comma_fields line).
Proof. rewrite length_split. unfold comma_fields. lia. Qed.

End PyFacts.

(** ** Facts about the effects *)

Module EffFacts.
Import Eff.

Lemma result_bind {A B} (m : M A) (k : A -> M B) w :
  result (bind m k w) =
  match result (m w) with
  | Return a => result (k a (world (m w)))
  | Raise e => Raise e
  end.
Proof.
  unfold bind. destruct (m w) as [[a|e] w1 l1]; simpl; [|reflexivity].
  destruct (k a w1); reflexivity.
Qed.

Lemma world_bind {A B} (m : M A) (k : A -> M B) w :
  world (bind m k w) =
  match result (m w) with
  | Return a => world (k a (world (m w)))
  | Raise e => world (m w)
  end.
Proof.
  unfold bind. destruct (m w) as [[a|e] w1 l1]; simpl; [|reflexivity].
  destruct (k a w1); reflexivity.
Qed.

Lemma logged_bind {A B} (m : M A) (k : A -> M B) w :
  logged (bind m k w) =
  logged (m w) ++
  match result (m w) with
  | Return a => logged (k a (world (m w)))
  | Raise e => []
  end.
Proof.
  unfold bind. destruct (m w) as [[a|e] w1 l1]; simpl.
  - destruct (k a w1); reflexivity.
  - symmetry. apply app_nil_r.
Qed.

Lemma bind_assoc {A B C} (m : M A) (f : A -> M B) (g : B -> M C) w :
  bind (bind m f) g w = bind m (fun a => bind (f a) g) w.
Proof.
  unfold bind. destruct (m w) as [[a|e] w1 l1]; [|reflexivity].
  destruct (f a w1) as [[b|e] w2 l2]; [|reflexivity].
  destruct (g b w2) as [o w3 l3]. rewrite app_assoc. reflexivity.
Qed.

Lemma bind_ret_l {A B} (a : A) (k : A -> M B) w : bind (ret a) k w = k a w.
Proof. unfold bind, ret. destruct (k a w). reflexivity. Qed.

Lemma result_try_except {A} (body : M A) handler w :
  result (try_except body handler w) =
  match result (body w) with
  | Return a => Return a
  | Raise e => result (handler e (world (body w)))
  end.
Proof.
  unfold try_except. destruct (body w) as [[a|e] w1 l1]; simpl; [reflexivity|].
  destruct (handler e w1); reflexivity.
Qed.



(** Running a loop and then a continuation is running the first round and
    then the rest. *)
Lemma for_each_cons_then {A S B} (body : S -> A -> M S) (k : S -> M B)
  x xs s w :
  bind (for_each body (x :: xs) s) k w
  = bind (body s x) (fun s' => bind (for_each body xs s') k) w.
Proof. simpl. apply bind_assoc. Qed.

End EffFacts.

(** ** The parser of [code_churn] *)

Module ParserFacts.
Import Py Eff Spec PyFacts EffFacts code_churn.

Lemma header_parts line :
  (3 <= comma_fields line)%nat ->
  exists more,
    split "," (Some 3%nat) (strip "'" line)
    = field 0 line :: field 1 line :: field 2 line :: more.
Proof.
  intros H. unfold field.
  pose proof (length_header_parts line) as L.
  destruct (split "," (Some 3%nat) (strip "'" line))
    as [|p0 [|p1 [|p2 more]]]; cbn [length] in L; try lia.
  exists more. reflexivity.
Qed.

Lemma short_header_parts line :
  (comma_fields line < 3)%nat ->
  nth_error (split "," (Some 3%nat) (strip "'" line)) 2 = None.
Proof.
  intros H. apply nth_error_None. rewrite length_header_parts. lia.
Qed.

(** A line that is not a header is counted, raises nothing and leaves the
    outside state alone. *)
Lemma loop_body_stat st line w :
  is_header line = false ->
  exists st' l,
    loop_body st line w = Run (Return st') w l
    /\ commit_data st' = commit_data st
    /\ commit_info st' = commit_info st
    /\ total_added st' = total_added st + fst (stat_counts line)
    /\ total_removed st' = total_removed st + snd (stat_counts line).
Proof.
  intros H. unfold is_header in H. unfold loop_body, stat_counts. rewrite H.
  destruct (split "009" None line) as [|p0 [|p1 [|p2 [|p3 ps]]]];
    eexists; eexists; (split; [reflexivity|]); simpl;
    repeat split; try reflexivity; lia.
Qed.

Lemma loop_body_header st line w :
  is_header line = true ->
  (3 <= comma_fields line)%nat ->
  exists l,
    loop_body st line w =
    Run (Return {| commit_data := commit_data st ++ pending st [];
                   commit_info := Some (header_of line);
                   total_added := 0; total_removed := 0 |}) w l.
Proof.
  intros H F. unfold is_header in H. unfold loop_body. rewrite H.
  destruct (header_parts line F) as [more ->].
  unfold pending, total. simpl fold_right. rewrite !Z.add_0_r.
  destruct (commit_info st) as [h|]; eexists; unfold bind; simpl;
    rewrite ?app_nil_r; reflexivity.
Qed.

Lemma loop_body_short_header st line w :
  is_header line = true ->
  (comma_fields line < 3)%nat ->
  result (loop_body st line w) = Raise (Exc IndexError "list index out of range").
Proof.
  intros H F. unfold is_header in H. unfold loop_body. rewrite H.
  pose proof (short_header_parts line F) as N.
  pose proof (split_nonempty "," (Some 3%nat) (strip "'" line)) as NE.
  destruct (split "," (Some 3%nat) (strip "'" line)) as [|p0 [|p1 [|p2 more]]];
    try discriminate; try congruence;
    destruct (commit_info st); reflexivity.
Qed.

Lemma total_cons f line stats :
  total f (line :: stats) = f (stat_counts line) + total f stats.
Proof. reflexivity. Qed.

(** The loop and the code after it, from any loop state: the commits
    stored so far, then the open commit with its remaining lines, then the
    blocks of the rest of the input. *)
Lemma run_lines lines :
  forall st w,
    well_formed lines ->
    result (bind (for_each loop_body lines st) finish w)
    = Return (commit_data st ++ pending st (own_stats lines)
              ++ map block_commit (blocks lines))
    /\ world (bind (for_each loop_body lines st) finish w) = w.
Proof.
  induction lines as [|line rest IH]; intros st w WF.
  - cbn [for_each]. rewrite bind_ret_l.
    unfold pending, finish, total. simpl fold_right. rewrite !Z.add_0_r.
    destruct (commit_info st); simpl; rewrite ?app_nil_r; split; reflexivity.
  - rewrite for_each_cons_then, result_bind, world_bind.
    inversion WF as [|? ? Hl Hrest]; subst.
    simpl own_stats. simpl blocks.
    destruct (is_header line) eqn:E.
    + destruct (loop_body_header st line w E (Hl eq_refl)) as [l ->].
      cbn [result world].
      destruct (IH {| commit_data := commit_data st ++ pending st [];
                      commit_info := Some (header_of line);
                      total_added := 0; total_removed := 0 |} w Hrest)
        as [-> ->].
      split; [|reflexivity]. f_equal.
      cbn [commit_data map]. rewrite <- app_assoc. reflexivity.
    + destruct (loop_body_stat st line w E) as (st' & l & -> & D & I & A & R).
      cbn [result world].
      destruct (IH st' w Hrest) as [-> ->].
      split; [|reflexivity]. f_equal. rewrite D. f_equal. f_equal.
      unfold pending. rewrite I, A, R, !total_cons.
      destruct (commit_info st); [|reflexivity].
      rewrite !Z.add_assoc. reflexivity.
Qed.

Lemma length_blocks lines : length (blocks lines) = header_count lines.
Proof.
  unfold header_count.
  induction lines as [|l ls IH]; simpl; [reflexivity|].
  destruct (is_header l); simpl; rewrite IH; reflexivity.
Qed.

Lemma parse_lines_blocks lines w :
  well_formed lines ->
  result (parse_lines lines w) = Return (map block_commit (blocks lines)).
Proof.
  intros WF. exact (proj1 (run_lines lines initial w WF)).
Qed.

End ParserFacts.

(** ** The parser of [code_churn_v2] against the one of [code_churn] *)

Module SimulationFacts.
Import Py Eff Spec PyFacts EffFacts.

Lemma get_modified_lines_returns os commit_id w :
  exists n, result (code_churn_v2.get_modified_lines os commit_id w) = Return n.
Proof.
  unfold code_churn_v2.get_modified_lines. rewrite result_try_except.
  match goal with |- context [match ?r with Return _ => _ | Raise _ => _ end] =>
    destruct r as [n|e] end.
  - exists n. reflexivity.
  - exists 0. reflexivity.
Qed.

Lemma store_returns os h added removed w :
  exists c,
    result (code_churn_v2.store os h added removed w) = Return c
    /\ forget c =
       {| code_churn.commit_id := code_churn_v2.h_commit_id h;
          code_churn.date := code_churn_v2.h_date h;
          code_churn.message := code_churn_v2.h_message h;
          code_churn.added_lines := added;
          code_churn.removed_lines := removed |}.
Proof.
  unfold code_churn_v2.store. rewrite result_bind.
  destruct (get_modified_lines_returns os (code_churn_v2.h_commit_id h) w)
    as [n ->].
  eexists. split; reflexivity.
Qed.

Lemma step_simulation os line st2 st1 w2 w1 :
  same_state st2 st1 ->
  match result (code_churn_v2.loop_body os st2 line w2),
        result (code_churn.loop_body st1 line w1) with
  | Return s2, Return s1 => same_state s2 s1
  | Raise e2, Raise e1 => e2 = e1
  | _, _ => False
  end.
Proof.
  destruct st2 as [d2 i2 a2 r2], st1 as [d1 i1 a1 r1].
  unfold same_state. simpl. intros (D & I & A & R). subst.
  unfold code_churn_v2.loop_body, code_churn.loop_body.
  destruct (startswith line "'").
  - cbn [code_churn_v2.commit_info code_churn.commit_info].
    destruct i2 as [h2|], i1 as [h1|]; try discriminate.
    + cbn [code_churn_v2.total_added code_churn_v2.total_removed
             code_churn_v2.commit_data].
      rewrite !result_bind.
      destruct (store_returns os h2 a1 r1 w2) as (c & -> & F).
      injection I as I0 I1 I2.
      destruct (split "," (Some 3%nat) (strip "'" line))
        as [|p0 [|p1 [|p2 more]]]; simpl; try reflexivity.
      unfold same_state; simpl. repeat split; try reflexivity.
      rewrite map_app. cbn [map]. rewrite F. unfold code_churn.store.
      rewrite I0, I1, I2. reflexivity.
    + destruct (split "," (Some 3%nat) (strip "'" line))
        as [|p0 [|p1 [|p2 more]]]; simpl; try reflexivity.
      unfold same_state; simpl. repeat split; reflexivity.
  - destruct (split "009" None line) as [|p0 [|p1 [|p2 [|p3 ps]]]]; simpl;
      unfold same_state; simpl; repeat split; try reflexivity; assumption.
Qed.

(** The two parsers raise together or return records that agree up to
    [modified_lines], from loop states that agree. *)
Lemma run_simulation os lines :
  forall st2 st1 w2 w1,
    same_state st2 st1 ->
    same_result
      (result (bind (for_each (code_churn_v2.loop_body os) lines st2)
                    (code_churn_v2.finish os) w2))
      (result (bind (for_each code_churn.loop_body lines st1)
                    code_churn.finish w1)).
Proof.
  induction lines as [|line rest IH]; intros st2 st1 w2 w1 S.
  - cbn [for_each]. rewrite !bind_ret_l.
    destruct st2 as [d2 i2 a2 r2], st1 as [d1 i1 a1 r1].
    destruct S as (D & I & A & R). simpl in D, I, A, R. subst.
    unfold code_churn_v2.finish, code_churn.finish.
    cbn [code_churn_v2.commit_info code_churn.commit_info
         code_churn_v2.total_added code_churn_v2.total_removed
         code_churn_v2.commit_data].
    destruct i2 as [h2|], i1 as [h1|]; try discriminate.
    + rewrite !result_bind.
      destruct (store_returns os h2 a1 r1 w2) as (c & -> & F).
      injection I as I0 I1 I2. simpl.
      rewrite map_app. cbn [map]. rewrite F. unfold code_churn.store.
      rewrite I0, I1, I2. reflexivity.
    + reflexivity.
  - rewrite !for_each_cons_then, !result_bind.
    pose proof (step_simulation os line st2 st1 w2 w1 S) as T.
    destruct (result (code_churn_v2.loop_body os st2 line w2)) as [s2|e2],
             (result (code_churn.loop_body st1 line w1)) as [s1|e1];
      try contradiction.
    + apply IH. exact T.
    + exact T.
Qed.

Lemma parse_lines_simulation os lines w2 w1 :
  same_result (result (code_churn_v2.parse_lines os lines w2))
              (result (code_churn.parse_lines lines w1)).
Proof.
  apply (run_simulation os lines code_churn_v2.initial code_churn.initial).
  repeat split.
Qed.

End SimulationFacts.

(** ** Lines outside any block, and short headers *)

Module PreambleFacts.
Import Py Eff Spec PyFacts EffFacts.

Lemma for_each_app_then {A S B} (body : S -> A -> M S) (k : S -> M B) xs ys :
  forall s w,
    bind (for_each body (xs ++ ys) s) k w
    = bind (for_each body xs s) (fun s' => bind (for_each body ys s') k) w.
Proof.
  induction xs as [|x xs IH]; intros s w.
  - cbn [app for_each]. rewrite bind_ret_l. reflexivity.
  - cbn [app]. rewrite !for_each_cons_then.
    unfold bind at 1 3. destruct (body s x w) as [[s'|e] w1 l1]; [|reflexivity].
    rewrite IH. reflexivity.
Qed.

Lemma loop_body_stat_v2 os st line w :
  is_header line = false ->
  exists st' l,
    code_churn_v2.loop_body os st line w = Run (Return st') w l
    /\ code_churn_v2.commit_data st' = code_churn_v2.commit_data st
    /\ code_churn_v2.commit_info st' = code_churn_v2.commit_info st
    /\ code_churn_v2.total_added st'
       = code_churn_v2.total_added st + fst (stat_counts line)
    /\ code_churn_v2.total_removed st'
       = code_churn_v2.total_removed st + snd (stat_counts line).
Proof.
  intros H. unfold is_header in H.
  unfold code_churn_v2.loop_body, stat_counts. rewrite H.
  destruct (split "009" None line) as [|p0 [|p1 [|p2 [|p3 ps]]]];
    eexists; eexists; (split; [reflexivity|]); simpl;
    repeat split; try reflexivity; lia.
Qed.

(** While no commit is open the running totals are never read. *)
Lemma totals_unread lines :
  forall st st' w,
    code_churn.commit_info st = None ->
    code_churn.commit_info st' = None ->
    code_churn.commit_data st = code_churn.commit_data st' ->
    result (bind (for_each code_churn.loop_body lines st) code_churn.finish w)
    = result (bind (for_each code_churn.loop_body lines st')
                   code_churn.finish w).
Proof.
  induction lines as [|line rest IH]; intros st st' w I I' D.
  - cbn [for_each]. rewrite !bind_ret_l. unfold code_churn.finish.
    rewrite I, I', D. reflexivity.
  - rewrite !for_each_cons_then. destruct (is_header line) eqn:E.
    + rewrite !result_bind.
      assert (code_churn.loop_body st line w = code_churn.loop_body st' line w)
        as ->; [|reflexivity].
      unfold is_header in E.
      unfold code_churn.loop_body. rewrite E, I, I', D. reflexivity.
    + destruct (ParserFacts.loop_body_stat st line w E)
        as (s & l & B & Ds & Is & _).
      destruct (ParserFacts.loop_body_stat st' line w E)
        as (s' & l' & B' & Ds' & Is' & _).
      rewrite !result_bind, B, B'. cbn [result world].
      apply IH; congruence.
Qed.

Lemma totals_unread_v2 os lines :
  forall st st' w,
    code_churn_v2.commit_info st = None ->
    code_churn_v2.commit_info st' = None ->
    code_churn_v2.commit_data st = code_churn_v2.commit_data st' ->
    let r := bind (for_each (code_churn_v2.loop_body os) lines st)
                  (code_churn_v2.finish os) w in
    let r' := bind (for_each (code_churn_v2.loop_body os) lines st')
                   (code_churn_v2.finish os) w in
    result r = result r' /\ world r = world r'.
Proof.
  induction lines as [|line rest IH]; intros st st' w I I' D; cbv zeta.
  - cbn [for_each]. rewrite !bind_ret_l. unfold code_churn_v2.finish.
    rewrite I, I', D. split; reflexivity.
  - rewrite !for_each_cons_then. destruct (is_header line) eqn:E.
    + rewrite !result_bind, !world_bind.
      assert (code_churn_v2.loop_body os st line w
              = code_churn_v2.loop_body os st' line w)
        as ->; [|split; reflexivity].
      unfold is_header in E.
      unfold code_churn_v2.loop_body. rewrite E, I, I', D. reflexivity.
    + destruct (loop_body_stat_v2 os st line w E)
        as (s & l & B & Ds & Is & _).
      destruct (loop_body_stat_v2 os st' line w E)
        as (s' & l' & B' & Ds' & Is' & _).
      rewrite !result_bind, !world_bind, B, B'. cbn [result world].
      apply IH; congruence.
Qed.

(** Lines before the first header leave no trace in the result. *)
Lemma preamble_dropped pre rest :
  Forall (fun l => is_header l = false) pre ->
  forall st w,
    code_churn.commit_info st = None ->
    result (bind (for_each code_churn.loop_body (pre ++ rest) st)
                 code_churn.finish w)
    = result (bind (for_each code_churn.loop_body rest st)
                   code_churn.finish w).
Proof.
  induction 1 as [|line pre E _ IH]; intros st w I; [reflexivity|].
  cbn [app]. rewrite for_each_cons_then.
  destruct (ParserFacts.loop_body_stat st line w E) as (s & l & B & Ds & Is & _).
  rewrite result_bind, B. cbn [result world].
  rewrite IH by congruence.
  apply totals_unread; congruence.
Qed.

Lemma preamble_dropped_v2 os pre rest :
  Forall (fun l => is_header l = false) pre ->
  forall st w,
    code_churn_v2.commit_info st = None ->
    let r := bind (for_each (code_churn_v2.loop_body os) (pre ++ rest) st)
                  (code_churn_v2.finish os) w in
    let r' := bind (for_each (code_churn_v2.loop_body os) rest st)
                   (code_churn_v2.finish os) w in
    result r = result r' /\ world r = world r'.
Proof.
  induction 1 as [|line pre E _ IH]; intros st w I; cbv zeta;
    [split; reflexivity|].
  cbn [app]. rewrite for_each_cons_then.
  destruct (loop_body_stat_v2 os st line w E) as (s & l & B & Ds & Is & _).
  rewrite result_bind, world_bind, B. cbn [result world].
  destruct (IH s w) as [-> ->]; [congruence|].
  apply totals_unread_v2; congruence.
Qed.

(** A header with fewer than three fields makes the loop raise, at that
    line or at an earlier one like it. *)
Lemma short_header_raises lines line :
  In line lines ->
  is_header line = true ->
  (comma_fields line < 3)%nat ->
  forall st w,
    result (bind (for_each code_churn.loop_body lines st) code_churn.finish w)
    = Raise (Exc IndexError "list index out of range").
Proof.
  intros IN H F.
  induction lines as [|l ls IH]; intros st w; [contradiction|].
  rewrite for_each_cons_then, result_bind.
  destruct (is_header l) eqn:E.
  - destruct (Nat.lt_ge_cases (comma_fields l) 3) as [S|L].
    + rewrite (ParserFacts.loop_body_short_header st l w E S). reflexivity.
    + destruct (ParserFacts.loop_body_header st l w E L) as [lg ->].
      cbn [result world]. apply IH.
      destruct IN as [->|IN]; [lia|exact IN].
  - destruct (ParserFacts.loop_body_stat st l w E) as (s & lg & -> & _).
    cbn [result world]. apply IH.
    destruct IN as [->|IN]; [congruence|exact IN].
Qed.

(** When the loop returns, every header had its three fields. *)
Lemma returns_well_formed lines :
  forall st w records,
    result (bind (for_each code_churn.loop_body lines st) code_churn.finish w)
    = Return records ->
    well_formed lines.
Proof.
  intros st w records R. apply Forall_forall. intros line IN H.
  destruct (Nat.lt_ge_cases (comma_fields line) 3) as [S|L]; [|exact L].
  rewrite (short_header_raises lines line IN H S) in R. discriminate.
Qed.

End PreambleFacts.

(** ** Properties of the log parser *)

Module ParserClaims.
Import Py Eff Spec Samples PyFacts EffFacts ParserFacts SimulationFacts
       PreambleFacts.

Lemma same_result_return r2 records :
  same_result r2 (Return records) ->
  exists records2, r2 = Return records2 /\ map forget records2 = records.
Proof.
  destruct r2 as [c2|e2]; simpl; [|contradiction].
  intros <-. exists c2. split; reflexivity.
Qed.

Lemma same_result_raise r2 e : same_result r2 (Raise e) -> r2 = Raise e.
Proof. destruct r2 as [c2|e2]; simpl; [contradiction|congruence]. Qed.

Lemma fully_malformed_counts line :
  fully_malformed line -> stat_counts line = (0, 0).
Proof.
  unfold fully_malformed, stat_counts.
  intros [N|(a & r & f & -> & A & R)].
  - destruct (split "009" None line) as [|p0 [|p1 [|p2 [|p3 ps]]]];
      try reflexivity.
    exfalso. apply N. reflexivity.
  - unfold code_churn.safe_int. rewrite A, R. reflexivity.
Qed.

(** A line that counts for nothing can be taken out of the input. *)
Lemma noop_line_v2 os line after :
  is_header line = false ->
  stat_counts line = (0, 0) ->
  forall st w,
    let r := bind (for_each (code_churn_v2.loop_body os) (line :: after) st)
                  (code_churn_v2.finish os) w in
    let r' := bind (for_each (code_churn_v2.loop_body os) after st)
                   (code_churn_v2.finish os) w in
    result r = result r' /\ world r = world r'.
Proof.
  intros H Z0 st w. cbv zeta.
  rewrite for_each_cons_then, result_bind, world_bind.
  destruct (loop_body_stat_v2 os st line w H) as (s & l & -> & D & I & A & R).
  cbn [result world].
  assert (s = st) as ->; [|split; reflexivity].
  rewrite Z0 in A, R. simpl in A, R. rewrite Z.add_0_r in A, R.
  destruct s, st; simpl in *; congruence.
Qed.

Lemma drop_line_v2 os line before after w :
  is_header line = false ->
  stat_counts line = (0, 0) ->
  result (code_churn_v2.parse_lines os (before ++ line :: after) w)
  = result (code_churn_v2.parse_lines os (before ++ after) w)
  /\ world (code_churn_v2.parse_lines os (before ++ line :: after) w)
     = world (code_churn_v2.parse_lines os (before ++ after) w).
Proof.
  intros H Z0. unfold code_churn_v2.parse_lines.
  change (fun st => code_churn_v2.finish os st) with (code_churn_v2.finish os).
  rewrite !for_each_app_then, !result_bind, !world_bind.
  destruct (result (for_each (code_churn_v2.loop_body os) before
                             code_churn_v2.initial w)) as [s|e].
  - apply (noop_line_v2 os line after H Z0).
  - split; reflexivity.
Qed.

(** A field without a minus sign in front never counts for a negative
    number. *)
Lemma safe_int_nonneg s :
  (forall rest, strip_class int_isspace s <> String "-" rest) ->
  0 <= code_churn.safe_int s.
Proof.
  intros NS. unfold code_churn.safe_int.
  destruct (int s) as [v|] eqn:I; [|lia].
  destruct (Z.lt_ge_cases v 0) as [N|P]; [|exact P].
  destruct (int_negative_has_sign s v I N) as [rest T].
  destruct (NS rest T).
Qed.

Lemma total_nonneg f stats :
  Forall (fun l => 0 <= f (stat_counts l)) stats -> 0 <= total f stats.
Proof.
  induction 1 as [|l ls P _ IH]; [reflexivity|].
  rewrite total_cons. lia.
Qed.

(** C1, at the failing input: the header of a commit whose subject is
    "fix parser, add tests" is split at three commas, and both parsers keep
    "fix parser" as the message: the text after the third comma is lost. *)
Theorem header_message_cut_at_third_comma os w1 w2 :
  let text := header_line "abc123" "Mon Jan 1 2024" "fix parser, add tests" in
  let record :=
    {| code_churn.commit_id := "abc123";
       code_churn.date := "Mon Jan 1 2024";
       code_churn.message := "fix parser";
       code_churn.added_lines := 0;
       code_churn.removed_lines := 0 |} in
  split "," (Some 3%nat) (strip "'" text)
  = ["abc123"; "Mon Jan 1 2024"; "fix parser"; " add tests"]
  /\ result (code_churn.parse_git_log text w1) = Return [record]
  /\ exists records2,
       result (code_churn_v2.parse_git_log os text w2) = Return records2
       /\ map forget records2 = [record].
Proof.
  cbv zeta. split; [reflexivity|]. split; [reflexivity|].
  apply same_result_return.
  pose proof (parse_lines_simulation os
    (splitlines (header_line "abc123" "Mon Jan 1 2024" "fix parser, add tests"))
    w2 w1) as S.
  exact S.
Qed.

(** C4: on an input whose headers all have at least three comma-separated
    fields, both parsers return one record per header line, and the record
    of a header takes its totals from the lines between that header and the
    next one only; the empty input gives no record. *)
Theorem parse_git_log_one_record_per_header os text w1 w2 :
  well_formed (splitlines text) ->
  exists records1 records2,
    result (code_churn.parse_git_log text w1) = Return records1
    /\ result (code_churn_v2.parse_git_log os text w2) = Return records2
    /\ records1 = map block_commit (blocks (splitlines text))
    /\ map forget records2 = records1
    /\ length records1 = header_count (splitlines text)
    /\ length records2 = header_count (splitlines text)
    /\ (text = EmptyString -> records1 = [] /\ records2 = []).
Proof.
  intros WF.
  pose proof (parse_lines_blocks (splitlines text) w1 WF) as R1.
  pose proof (parse_lines_simulation os (splitlines text) w2 w1) as S.
  rewrite R1 in S. apply same_result_return in S.
  destruct S as (records2 & R2 & F).
  exists (map block_commit (blocks (splitlines text))), records2.
  assert (L1 : length (map block_commit (blocks (splitlines text)))
               = header_count (splitlines text))
    by (rewrite length_map; apply length_blocks).
  repeat split; try assumption.
  - rewrite <- L1, <- F, length_map. reflexivity.
  - subst text. reflexivity.
  - subst text. simpl in F. destruct records2; [reflexivity|discriminate].
Qed.

Lemma parse_git_log_one_record_per_header_witness :
  well_formed (splitlines sample_log)
  /\ exists records1 records2,
       result (code_churn.parse_git_log sample_log empty_ext)
       = Return records1
       /\ result (code_churn_v2.parse_git_log sample_os sample_log empty_ext)
          = Return records2
       /\ records1 = map block_commit (blocks (splitlines sample_log))
       /\ map forget records2 = records1
       /\ length records1 = header_count (splitlines sample_log)
       /\ length records2 = header_count (splitlines sample_log)
       /\ (sample_log = EmptyString -> records1 = [] /\ records2 = []).
Proof.
  assert (WF : well_formed (splitlines sample_log)).
  { let l := eval vm_compute in (splitlines sample_log) in
    change (well_formed l).
    repeat (apply Forall_cons;
            [intros E; vm_compute in E |- *; first [discriminate | lia]|]).
    apply Forall_nil. }
  split; [exact WF|].
  exact (parse_git_log_one_record_per_header sample_os sample_log
           empty_ext empty_ext WF).
Defined.

(** C5: a line that is not a header never makes the parser of
    [code_churn_v2] raise and never touches the stored commits or the open
    header.  With fields other than three it changes nothing; with three
    fields each of the first two adds its number to the running total, or 0
    when it is not a number.  A line that is fully malformed can be taken
    out of the input without changing the records returned. *)
Theorem stat_line_never_aborts os st line w :
  is_header line = false ->
  (exists st',
     result (code_churn_v2.loop_body os st line w) = Return st'
     /\ world (code_churn_v2.loop_body os st line w) = w
     /\ code_churn_v2.commit_data st' = code_churn_v2.commit_data st
     /\ code_churn_v2.commit_info st' = code_churn_v2.commit_info st
     /\ (length (split "009" None line) <> 3%nat ->
         st' = st
         /\ logged (code_churn_v2.loop_body os st line w)
            = [(WARNING, [Lit "Skipping malformed line: "; Fmt (VStr line)])])
     /\ (forall a r f,
           split "009" None line = [a; r; f] ->
           code_churn_v2.total_added st'
           = code_churn_v2.total_added st
             + match int a with Some n => n | None => 0 end
           /\ code_churn_v2.total_removed st'
              = code_churn_v2.total_removed st
                + match int r with Some n => n | None => 0 end))
  /\ (fully_malformed line ->
      forall before after w',
        result (code_churn_v2.parse_lines os (before ++ line :: after) w')
        = result (code_churn_v2.parse_lines os (before ++ after) w')).
Proof.
  intros H. split.
  - destruct (loop_body_stat_v2 os st line w H) as (s & l & B & D & I & A & R).
    exists s. split; [rewrite B; reflexivity|]. split; [rewrite B; reflexivity|].
    split; [exact D|]. split; [exact I|]. split.
    + intros N. split.
      * unfold stat_counts in A, R.
        destruct (split "009" None line) as [|p0 [|p1 [|p2 [|p3 ps]]]];
          simpl in A, R, N; try congruence;
          rewrite Z.add_0_r in A, R; destruct s, st; simpl in *; congruence.
      * unfold is_header in H.
        unfold code_churn_v2.loop_body. rewrite H.
        destruct (split "009" None line) as [|p0 [|p1 [|p2 [|p3 ps]]]];
          try reflexivity.
        exfalso. apply N. reflexivity.
    + intros a r f S. unfold stat_counts in A, R. rewrite S in A, R.
      split; [exact A|exact R].
  - intros FM before after w'.
    apply (drop_line_v2 os line before after w' H
             (fully_malformed_counts line FM)).
Qed.

Lemma stat_line_never_aborts_witness :
  let line := ("abc" ++ TAB ++ "def" ++ TAB ++ "file.txt")%string in
  is_header line = false
  /\ fully_malformed line
  /\ result (code_churn_v2.loop_body sample_os code_churn_v2.initial line
                                     empty_ext)
     = Return code_churn_v2.initial
  /\ result (code_churn_v2.parse_lines sample_os
               (["'c0,Mon Jan 1 2024,first'"] ++ line :: []) empty_ext)
     = result (code_churn_v2.parse_lines sample_os
                 (["'c0,Mon Jan 1 2024,first'"] ++ []) empty_ext).
Proof.
  cbv zeta.
  assert (H : is_header ("abc" ++ TAB ++ "def" ++ TAB ++ "file.txt") = false)
    by reflexivity.
  assert (FM : fully_malformed ("abc" ++ TAB ++ "def" ++ TAB ++ "file.txt")).
  { right. exists "abc", "def", "file.txt". repeat split; reflexivity. }
  destruct (stat_line_never_aborts sample_os code_churn_v2.initial
              ("abc" ++ TAB ++ "def" ++ TAB ++ "file.txt") empty_ext H)
    as [_ D].
  split; [exact H|]. split; [exact FM|]. split; [reflexivity|].
  exact (D FM ["'c0,Mon Jan 1 2024,first'"] [] empty_ext).
Defined.

(** C7, amended: in every record that the parser of [code_churn] returns,
    [added_lines] and [removed_lines] are the sums, over the lines of the
    commit's own block, of what each line counts for; they are not negative
    when no line of the block counts for a negative number. *)
Theorem totals_are_sums_of_own_stat_lines text w records :
  result (code_churn.parse_git_log text w) = Return records ->
  Forall2
    (fun c b =>
       code_churn.added_lines c = total fst (snd b)
       /\ code_churn.removed_lines c = total snd (snd b)
       /\ (Forall (fun l => 0 <= fst (stat_counts l)
                            /\ 0 <= snd (stat_counts l)) (snd b) ->
           0 <= code_churn.added_lines c /\ 0 <= code_churn.removed_lines c))
    records (blocks (splitlines text)).
Proof.
  intros R.
  pose proof (returns_well_formed (splitlines text) code_churn.initial w
                records R) as WF.
  unfold code_churn.parse_git_log in R.
  rewrite (parse_lines_blocks (splitlines text) w WF) in R.
  injection R as <-.
  induction (blocks (splitlines text)) as [|b bs IH]; [constructor|].
  constructor; [|exact IH].
  cbn [block_commit code_churn.added_lines code_churn.removed_lines].
  split; [reflexivity|]. split; [reflexivity|]. intros P.
  split; apply total_nonneg; (eapply Forall_impl; [|exact P]);
    cbv beta; tauto.
Qed.

Lemma totals_are_sums_of_own_stat_lines_witness :
  result (code_churn.parse_git_log sample_log empty_ext)
  = Return (map block_commit (blocks (splitlines sample_log)))
  /\ Forall2
       (fun c b =>
          code_churn.added_lines c = total fst (snd b)
          /\ code_churn.removed_lines c = total snd (snd b)
          /\ (Forall (fun l => 0 <= fst (stat_counts l)
                               /\ 0 <= snd (stat_counts l)) (snd b) ->
              0 <= code_churn.added_lines c
              /\ 0 <= code_churn.removed_lines c))
       (map block_commit (blocks (splitlines sample_log)))
       (blocks (splitlines sample_log)).
Proof.
  assert (R : result (code_churn.parse_git_log sample_log empty_ext)
              = Return (map block_commit (blocks (splitlines sample_log))))
    by reflexivity.
  split; [exact R|].
  exact (totals_are_sums_of_own_stat_lines sample_log empty_ext _ R).
Defined.

(** C7 as stated fails: a stat line whose first field is "-5" gives the
    record a negative [added_lines]. *)
Lemma negative_count_counterexample :
  ~ (forall text w records,
       result (code_churn.parse_git_log text w) = Return records ->
       Forall (fun c => 0 <= code_churn.added_lines c
                        /\ 0 <= code_churn.removed_lines c) records).
Proof.
  intros H.
  specialize (H ("'a1,Mon Jan 1 2024,fix'" ++ LF
                 ++ "-5" ++ TAB ++ "0" ++ TAB ++ "f.py")%string
                empty_ext
                [{| code_churn.commit_id := "a1";
                    code_churn.date := "Mon Jan 1 2024";
                    code_churn.message := "fix";
                    code_churn.added_lines := -5;
                    code_churn.removed_lines := 0 |}]
                eq_refl).
  inversion H as [|c cs [A _] _]. simpl in A. lia.
Qed.

(** C9: lines that are not headers and come before the rest of the input
    change nothing: both parsers return what they return without them, and
    the parser of [code_churn_v2] makes the same subprocess calls. *)
Theorem preamble_lines_contribute_nothing os text text' pre w :
  splitlines text = pre ++ splitlines text' ->
  Forall (fun l => is_header l = false) pre ->
  result (code_churn.parse_git_log text w)
  = result (code_churn.parse_git_log text' w)
  /\ result (code_churn_v2.parse_git_log os text w)
     = result (code_churn_v2.parse_git_log os text' w)
  /\ world (code_churn_v2.parse_git_log os text w)
     = world (code_churn_v2.parse_git_log os text' w).
Proof.
  intros S P.
  unfold code_churn.parse_git_log, code_churn_v2.parse_git_log.
  rewrite S. split.
  - apply (preamble_dropped pre (splitlines text') P code_churn.initial w).
    reflexivity.
  - apply (preamble_dropped_v2 os pre (splitlines text') P
             code_churn_v2.initial w).
    reflexivity.
Qed.

Lemma preamble_lines_contribute_nothing_witness :
  let text' := "'c0,Mon Jan 1 2024,first'" in
  let text := ("9" ++ TAB ++ "9" ++ TAB ++ "x.py" ++ LF ++ text')%string in
  splitlines text = ["9" ++ TAB ++ "9" ++ TAB ++ "x.py"]%string
                    ++ splitlines text'
  /\ Forall (fun l => is_header l = false)
            ["9" ++ TAB ++ "9" ++ TAB ++ "x.py"]%string
  /\ result (code_churn.parse_git_log text empty_ext)
     = result (code_churn.parse_git_log text' empty_ext)
  /\ result (code_churn_v2.parse_git_log sample_os text empty_ext)
     = result (code_churn_v2.parse_git_log sample_os text' empty_ext)
  /\ world (code_churn_v2.parse_git_log sample_os text empty_ext)
     = world (code_churn_v2.parse_git_log sample_os text' empty_ext).
Proof.
  cbv zeta.
  assert (S : splitlines ("9" ++ TAB ++ "9" ++ TAB ++ "x.py" ++ LF
                          ++ "'c0,Mon Jan 1 2024,first'")
              = ["9" ++ TAB ++ "9" ++ TAB ++ "x.py"]%string
                ++ splitlines "'c0,Mon Jan 1 2024,first'") by reflexivity.
  assert (P : Forall (fun l => is_header l = false)
                     ["9" ++ TAB ++ "9" ++ TAB ++ "x.py"]%string)
    by (repeat constructor).
  split; [exact S|]. split; [exact P|].
  exact (preamble_lines_contribute_nothing sample_os _ _ _ empty_ext S P).
Defined.

(** C10: when some header line of the input has fewer than three
    comma-separated fields, the lookup of its third field gives nothing and
    both parsers raise [IndexError]; no record is returned. *)
Theorem short_header_raises_index_error os text line w1 w2 :
  In line (splitlines text) ->
  is_header line = true ->
  (comma_fields line < 3)%nat ->
  nth_error (split "," (Some 3%nat) (strip "'" line)) 2 = None
  /\ result (code_churn.parse_git_log text w1)
     = Raise (Exc IndexError "list index out of range")
  /\ result (code_churn_v2.parse_git_log os text w2)
     = Raise (Exc IndexError "list index out of range").
Proof.
  intros IN H F.
  pose proof (short_header_raises (splitlines text) line IN H F
                code_churn.initial w1) as R1.
  split; [exact (short_header_parts line F)|].
  split; [exact R1|].
  apply same_result_raise.
  pose proof (parse_lines_simulation os (splitlines text) w2 w1) as S.
  unfold code_churn.parse_lines in S.
  change (fun st => code_churn.finish st) with code_churn.finish in S.
  rewrite R1 in S. exact S.
Qed.

Lemma short_header_raises_index_error_witness :
  let text := ("'c1,Tue Jan 2 2024,second'" ++ LF ++ "'c0,Mon Jan 1 2024'")%string in
  In "'c0,Mon Jan 1 2024'" (splitlines text)
  /\ is_header "'c0,Mon Jan 1 2024'" = true
  /\ (comma_fields "'c0,Mon Jan 1 2024'" < 3)%nat
  /\ nth_error (split "," (Some 3%nat) (strip "'" "'c0,Mon Jan 1 2024'")) 2
     = None
  /\ result (code_churn.parse_git_log text empty_ext)
     = Raise (Exc IndexError "list index out of range")
  /\ result (code_churn_v2.parse_git_log sample_os text empty_ext)
     = Raise (Exc IndexError "list index out of range").
Proof.
  cbv zeta.
  assert (IN : In "'c0,Mon Jan 1 2024'"
                  (splitlines ("'c1,Tue Jan 2 2024,second'" ++ LF
                               ++ "'c0,Mon Jan 1 2024'")))
    by (right; left; reflexivity).
  assert (H : is_header "'c0,Mon Jan 1 2024'" = true) by reflexivity.
  assert (F : (comma_fields "'c0,Mon Jan 1 2024'" < 3)%nat)
    by (vm_compute; lia).
  split; [exact IN|]. split; [exact H|]. split; [exact F|].
  exact (short_header_raises_index_error sample_os _ _ empty_ext empty_ext
           IN H F).
Defined.

End ParserClaims.

(** ** The sort and the report writer *)

Module WriterFacts.
Import Py Eff Spec Samples EffFacts.



Section ByKey.
Context {A : Type} (key : A -> string).






End ByKey.






End WriterFacts.

(** ** Properties of the report writer *)

Module WriterClaims.
Import Py Eff Spec Samples EffFacts WriterFacts.




End WriterClaims.

(** ** The merge-aware line counter and the log fetch *)

Module CounterFacts.
Import Py Eff Spec Samples EffFacts.




(** A failing step makes [get_modified_lines] return 0 after a logging
    call at level [ERROR]. *)
Lemma get_modified_lines_failure os commit_id w :
  some_step_fails os commit_id w = true ->
  let r := code_churn_v2.get_modified_lines os commit_id w in
  result r = Return 0 /\ existsb is_error (logged r) = true.
Proof.
  unfold some_step_fails, step_fails. cbv zeta.
  unfold code_churn_v2.get_modified_lines, try_except, bind, subprocess_run,
    lift.
  destruct (run_process os (calls w)
              (code_churn_v2.merge_check_command commit_id)) as [p|e];
    [|intros _; split; reflexivity].
  destruct (returncode p =? 0); cbn [negb];
    [|intros _; destruct (stderr p); split; reflexivity].
  destruct (stdout p) as [out|e]; [|intros _; split; reflexivity].
  cbn [calls files].
  change (if (length (split_ws (strip_ws out)) =? 2)%nat
          then code_churn_v2.merge_diff_command commit_id
          else code_churn_v2.parent_diff_command commit_id)
    with (diff_command commit_id out).
  destruct (run_process os
              (calls w ++ [code_churn_v2.merge_check_command commit_id])
              (diff_command commit_id out)) as [d|e];
    [|intros _; split; reflexivity].
  destruct (returncode d =? 0); cbn [negb orb];
    [|intros _; destruct (stderr d); split; reflexivity].
  destruct (stdout d); [discriminate|intros _; split; reflexivity].
Qed.

End CounterFacts.

Module CounterClaims.
Import Py Eff Spec Samples EffFacts CounterFacts.



(** C6: [get_modified_lines] always returns a number, whatever the
    subprocesses do; when a step fails (the merge check or the diff raises,
    exits with a status other than 0, or gives output that cannot be
    decoded) it returns 0 after a logging call at level [ERROR]. *)
Theorem get_modified_lines_never_raises os commit_id w :
  let r := code_churn_v2.get_modified_lines os commit_id w in
  (exists n, result r = Return n)
  /\ (some_step_fails os commit_id w = true ->
      result r = Return 0 /\ existsb is_error (logged r) = true).
Proof.
  cbv zeta. split.
  - apply SimulationFacts.get_modified_lines_returns.
  - apply get_modified_lines_failure.
Qed.

Lemma get_modified_lines_never_raises_witness :
  some_step_fails broken_os "c0" empty_ext = true
  /\ result (code_churn_v2.get_modified_lines broken_os "c0" empty_ext)
     = Return 0
  /\ existsb is_error
       (logged (code_churn_v2.get_modified_lines broken_os "c0" empty_ext))
     = true.
Proof.
  assert (F : some_step_fails broken_os "c0" empty_ext = true) by reflexivity.
  split; [exact F|].
  exact (proj2 (get_modified_lines_never_raises broken_os "c0" empty_ext) F).
Defined.

End CounterClaims.

(** ** The log fetch *)

Module FetchClaims.
Import Py Eff Spec Samples EffFacts.

(** A failed log fetch raises, after a logging call at level [ERROR], and
    leaves one more subprocess call behind. *)
Lemma get_git_log_failure os branch start_date end_date w p :
  run_process os (calls w)
    (code_churn_v2.git_log_command branch start_date end_date) = Return p ->
  returncode p <> 0 ->
  exists e l,
    code_churn_v2.get_git_log os branch start_date end_date w
    = Run (Raise e)
          {| calls := calls w
                      ++ [code_churn_v2.git_log_command branch start_date
                                                        end_date];
             files := files w |} l
    /\ existsb is_error l = true.
Proof.
  intros P RC. apply Z.eqb_neq in RC.
  unfold code_churn_v2.get_git_log, try_except, bind, subprocess_run, lift,
    logging.
  rewrite P, RC. cbn [negb].
  destruct (stderr p) as [err|e]; eexists; eexists; split; reflexivity.
Qed.

(** C8: when the log command exits with a status other than 0,
    [get_git_log] raises after a logging call at level [ERROR]; [main] then
    runs no other command, writes no file, and ends on the logging call
    "Script failed" at level [ERROR]. *)
Theorem log_fetch_failure_is_fatal os args w p :
  let command :=
    code_churn_v2.git_log_command (code_churn_v2.branch args)
      (code_churn_v2.start_date args) (code_churn_v2.end_date args) in
  run_process os (calls w) command = Return p ->
  returncode p <> 0 ->
  let g := code_churn_v2.get_git_log os (code_churn_v2.branch args)
             (code_churn_v2.start_date args) (code_churn_v2.end_date args) w in
  let m := code_churn_v2.main os args w in
  (exists e, result g = Raise e)
  /\ existsb is_error (logged g) = true
  /\ result m = Return tt
  /\ files (world m) = files w
  /\ calls (world m) = calls w ++ [command]
  /\ exists e,
       last (logged m) (DEBUG, [])
       = (ERROR, [Lit "Script failed: "; Fmt (VStr (str e))]).
Proof.
  cbv zeta. intros P RC.
  destruct (get_git_log_failure os _ _ _ w p P RC) as (e & l & G & E).
  unfold code_churn_v2.main, try_except, bind. rewrite G.
  cbn [result world logged logging files calls].
  split; [exists e; reflexivity|]. split; [exact E|].
  split; [reflexivity|]. split; [reflexivity|]. split; [reflexivity|].
  exists e. apply last_last.
Qed.

Lemma log_fetch_failure_is_fatal_witness :
  let p := {| returncode := 128; stdout := Return EmptyString;
              stderr := Return "fatal: not a git repository" |} in
  run_process broken_os (calls empty_ext)
    (code_churn_v2.git_log_command "main" "2024-01-01" "2024-02-01")
  = Return p
  /\ returncode p <> 0
  /\ result (code_churn_v2.main broken_os sample_args empty_ext) = Return tt
  /\ files (world (code_churn_v2.main broken_os sample_args empty_ext)) = [].
Proof.
  cbv zeta.
  assert (RC : returncode {| returncode := 128; stdout := Return EmptyString;
                             stderr := Return "fatal: not a git repository" |}
               <> 0) by (simpl; lia).
  split; [reflexivity|]. split; [exact RC|].
  destruct (log_fetch_failure_is_fatal broken_os sample_args empty_ext _
              eq_refl RC) as (_ & _ & R & F & _).
  split; [exact R|exact F].
Defined.

End FetchClaims.

(** ** Lines and texts *)

Module TextFacts.
Import Py Eff Spec Notions Samples PyFacts EffFacts.

Lemma splitlines_line_lf l rest :
  plain l = true ->
  splitlines (l ++ String "010" rest) = l :: splitlines rest.
Proof.
  induction l as [|c l IH]; intros P.
  - cbn [String.append]. cbn [splitlines].
    change (is_line_boundary "010") with true. cbv iota.
    destruct rest as [|c' rest']; [reflexivity|].
    change (code "010" =? 13)%N with false. reflexivity.
  - cbn [plain] in P. apply andb_prop in P. destruct P as [B P].
    apply negb_true_iff in B.
    cbn [String.append splitlines]. rewrite B, (IH P). reflexivity.
Qed.

Lemma splitlines_line_crlf l rest :
  plain l = true ->
  splitlines (l ++ String "013" (String "010" rest)) = l :: splitlines rest.
Proof.
  induction l as [|c l IH]; intros P.
  - reflexivity.
  - cbn [plain] in P. apply andb_prop in P. destruct P as [B P].
    apply negb_true_iff in B.
    cbn [String.append splitlines]. rewrite B, (IH P). reflexivity.
Qed.

Lemma splitlines_unlines_lf lines :
  Forall (fun l => plain l = true) lines ->
  splitlines (unlines LF lines) = lines.
Proof.
  induction 1 as [|l ls P _ IH]; [reflexivity|].
  cbn [unlines]. unfold LF at 1. cbn [String.append].
  rewrite (splitlines_line_lf l _ P), IH. reflexivity.
Qed.

Lemma splitlines_unlines_crlf lines :
  Forall (fun l => plain l = true) lines ->
  splitlines (unlines CR_LF lines) = lines.
Proof.
  induction 1 as [|l ls P _ IH]; [reflexivity|].
  cbn [unlines]. unfold CR_LF at 1. cbn [String.append].
  rewrite (splitlines_line_crlf l _ P), IH. reflexivity.
Qed.

Lemma string_app_assoc (a b c : string) :
  ((a ++ b) ++ c = a ++ (b ++ c))%string.
Proof.
  induction a as [|x a IH]; cbn [String.append]; [reflexivity|].
  rewrite IH. reflexivity.
Qed.

(** Stripping the quotes of a quoted text gives the text back, unless the
    text itself starts or ends with a quote. *)
Lemma rstrip_skips p s c :
  p c = true ->
  rstrip_class p (s ++ String c EmptyString) = rstrip_class p s.
Proof.
  intros P. induction s as [|x s IH].
  - cbn. rewrite P. reflexivity.
  - cbn [String.append rstrip_class]. rewrite IH. reflexivity.
Qed.

Lemma rstrip_keeps p s c :
  last_char s = Some c -> p c = false -> rstrip_class p s = s.
Proof.
  induction s as [|x s IH]; [discriminate|].
  cbn [last_char rstrip_class]. destruct s as [|y s].
  - intros [= ->] P. cbn. rewrite P. reflexivity.
  - intros L P. rewrite (IH L P). reflexivity.
Qed.

Lemma last_char_none s : last_char s = None -> s = EmptyString.
Proof.
  induction s as [|x s IH]; [reflexivity|].
  cbn [last_char]. destruct s; [discriminate|].
  intros L. specialize (IH L). discriminate.
Qed.

Lemma last_char_app a b :
  last_char (a ++ b) =
  match last_char b with Some c => Some c | None => last_char a end.
Proof.
  induction a as [|x a IH].
  - cbn. destruct (last_char b); reflexivity.
  - cbn [String.append last_char]. rewrite IH.
    destruct a as [|y a]; cbn [String.append].
    + destruct b as [|z b]; [reflexivity|].
      destruct (last_char (String z b)) eqn:E; [reflexivity|].
      apply last_char_none in E. discriminate.
    + reflexivity.
Qed.

Lemma strip_quoted body :
  startswith body "'" = false ->
  (forall c, last_char body = Some c -> c <> "'"%char) ->
  body <> EmptyString ->
  strip "'" ("'" ++ body ++ "'") = body.
Proof.
  intros S L N. unfold strip, strip_class.
  change ("'" ++ body ++ "'")%string with (String "'" (body ++ "'")).
  cbn [lstrip_class]. change (char_in "'" "'") with true. cbv iota.
  destruct body as [|c body]; [contradiction|].
  cbn [String.append lstrip_class].
  assert (C : char_in "'" c = false).
  { unfold startswith in S. cbn [String.prefix] in S. unfold char_in. cbn.
    destruct (Ascii.eqb_spec c "'") as [->|_]; [|reflexivity].
    destruct (ascii_dec "'" "'"); [destruct body; discriminate|contradiction]. }
  rewrite C.
  change (String c (body ++ "'"))%string with (String c body ++ "'")%string.
  rewrite rstrip_skips by reflexivity.
  destruct (last_char (String c body)) as [z|] eqn:E.
  - apply (rstrip_keeps _ _ z E). unfold char_in. cbn.
    destruct (Ascii.eqb_spec z "'") as [->|_]; [|reflexivity].
    destruct (L _ eq_refl eq_refl).
  - apply last_char_none in E. discriminate.
Qed.

Lemma split_first sep a b n :
  count_char sep a = O ->
  split sep (Some (S n)) (a ++ String sep b) = a :: split sep (Some n) b.
Proof.
  induction a as [|c a IH]; intros C.
  - cbn [String.append split]. rewrite Ascii.eqb_refl. reflexivity.
  - cbn [count_char] in C. cbn [String.append split].
    destruct (Ascii.eqb c sep); [discriminate|].
    cbn [andb]. rewrite (IH C). reflexivity.
Qed.

Lemma split_head n s :
  nth 0 (split "," (Some (S n)) s) EmptyString = before_comma s.
Proof.
  induction s as [|c s IH]; [reflexivity|].
  cbn [split before_comma]. destruct (Ascii.eqb c ","); [reflexivity|].
  cbn [andb]. pose proof (split_nonempty "," (Some (S n)) s) as NE.
  destruct (split "," (Some (S n)) s) as [|part parts]; [contradiction|].
  cbn [nth] in IH |- *. rewrite IH. reflexivity.
Qed.

Lemma before_comma_all s : count_char "," s = O -> before_comma s = s.
Proof.
  induction s as [|c s IH]; [reflexivity|].
  cbn [count_char before_comma].
  destruct (Ascii.eqb c ","); [discriminate|].
  intros C. rewrite (IH C). reflexivity.
Qed.

(** The parts that the parser finds in a header as the log format writes
    it. *)
Lemma header_line_parts id date subject :
  count_char "," id = O ->
  count_char "," date = O ->
  startswith id "'" = false ->
  last_char subject <> Some "'"%char ->
  split "," (Some 3%nat) (strip "'" (header_line id date subject))
  = id :: date :: split "," (Some 1%nat) subject.
Proof.
  intros CI CD S L. unfold header_line.
  change ("'" ++ id ++ "," ++ date ++ "," ++ subject ++ "'")%string
    with ("'" ++ (id ++ "," ++ date ++ "," ++ subject ++ "'"))%string.
  assert (A : (id ++ "," ++ date ++ "," ++ subject ++ "'"
               = (id ++ "," ++ date ++ "," ++ subject) ++ "'")%string).
  { rewrite !string_app_assoc. reflexivity. }
  rewrite A, strip_quoted.
  - change (id ++ "," ++ date ++ "," ++ subject)%string
      with (id ++ String "," (date ++ String "," subject))%string.
    rewrite (split_first "," id _ 2 CI), (split_first "," date _ 1 CD).
    reflexivity.
  - destruct id as [|c id]; [reflexivity|].
    unfold startswith in *. cbn [String.append String.prefix] in *.
    destruct (ascii_dec "'" c); [destruct id; discriminate|reflexivity].
  - intros c. rewrite !last_char_app.
    destruct (last_char subject) as [z|] eqn:E.
    + intros [= <-] ->. apply L. reflexivity.
    + cbn. intros [= <-]. discriminate.
  - destruct id; discriminate.
Qed.

End TextFacts.

(** ** More on the two parsers *)

Module ParserExtras.
Import Py Eff Spec Notions Samples PyFacts EffFacts TextFacts ParserFacts
       SimulationFacts PreambleFacts.

Lemma forallb_false_exists {A} (f : A -> bool) l :
  forallb f l = false -> exists x, In x l /\ f x = false.
Proof.
  induction l as [|x l IH]; [discriminate|].
  cbn [forallb]. destruct (f x) eqn:E.
  - intros H. destruct (IH H) as (y & IN & F). exists y. split; [right|]; assumption.
  - intros _. exists x. split; [left; reflexivity|exact E].
Qed.

Lemma well_formedb_true lines : well_formedb lines = true -> well_formed lines.
Proof.
  unfold well_formedb, well_formed. rewrite forallb_forall, Forall_forall.
  intros H l IN E. specialize (H l IN). rewrite E in H.
  apply Nat.leb_le. exact H.
Qed.

Lemma well_formedb_false lines :
  well_formedb lines = false ->
  exists line,
    In line lines /\ is_header line = true /\ (comma_fields line < 3)%nat.
Proof.
  intros H. destruct (forallb_false_exists _ _ H) as (l & IN & F).
  exists l. apply orb_false_iff in F. destruct F as [E F].
  apply negb_false_iff in E. apply Nat.leb_gt in F. auto.
Qed.

(** What the parser of [code_churn] gives on any lines. *)
Lemma parse_lines_result lines w :
  result (code_churn.parse_lines lines w)
  = if well_formedb lines then Return (map block_commit (blocks lines))
    else Raise index_error.
Proof.
  destruct (well_formedb lines) eqn:E.
  - apply parse_lines_blocks. apply well_formedb_true. exact E.
  - destruct (well_formedb_false lines E) as (l & IN & H & F).
    exact (short_header_raises lines l IN H F code_churn.initial w).
Qed.

Lemma own_stats_before_header before h after :
  is_header h = true -> own_stats (before ++ h :: after) = own_stats before.
Proof.
  intros H. induction before as [|l ls IH]; cbn [app own_stats].
  - rewrite H. reflexivity.
  - destruct (is_header l); [reflexivity|]. rewrite IH. reflexivity.
Qed.

Lemma blocks_app before h after :
  is_header h = true ->
  blocks (before ++ h :: after) = blocks before ++ blocks (h :: after).
Proof.
  intros H. induction before as [|l ls IH]; [reflexivity|].
  cbn [app blocks]. rewrite IH.
  destruct (is_header l); [|reflexivity].
  rewrite (own_stats_before_header ls h after H). reflexivity.
Qed.

(** X1: a header written as the log format writes it, with an id and a date
    free of commas, an id that does not start with a quote and a subject
    that does not end with one, gives both parsers the id and the date as
    they are and, as message, the subject up to its first comma: the whole
    subject when it has no comma. *)
Theorem header_fields_recovered os id date subject w1 w2 :
  count_char "," id = O ->
  count_char "," date = O ->
  startswith id "'" = false ->
  last_char subject <> Some "'"%char ->
  let record :=
    {| code_churn.commit_id := id;
       code_churn.date := date;
       code_churn.message := before_comma subject;
       code_churn.added_lines := 0;
       code_churn.removed_lines := 0 |} in
  result (code_churn.parse_lines [header_line id date subject] w1)
  = Return [record]
  /\ (exists records2,
        result (code_churn_v2.parse_lines os [header_line id date subject] w2)
        = Return records2
        /\ map forget records2 = [record])
  /\ (count_char "," subject = O -> before_comma subject = subject).
Proof.
  intros CI CD S L. cbv zeta.
  pose proof (header_line_parts id date subject CI CD S L) as P.
  assert (H : is_header (header_line id date subject) = true).
  { unfold is_header, startswith, header_line.
    change ("'" ++ id ++ "," ++ date ++ "," ++ subject ++ "'")%string
      with (String "'" (id ++ "," ++ date ++ "," ++ subject ++ "'")).
    cbn [String.prefix].
    destruct (ascii_dec "'" "'"); [destruct id; reflexivity|contradiction]. }
  assert (F : (3 <= comma_fields (header_line id date subject))%nat).
  { pose proof (length_header_parts (header_line id date subject)) as LP.
    rewrite P in LP. cbn [length] in LP. rewrite length_split in LP. lia. }
  assert (R : result (code_churn.parse_lines [header_line id date subject] w1)
              = Return [{| code_churn.commit_id := id;
                           code_churn.date := date;
                           code_churn.message := before_comma subject;
                           code_churn.added_lines := 0;
                           code_churn.removed_lines := 0 |}]).
  { rewrite parse_lines_blocks.
    - cbn [blocks own_stats map]. rewrite H. cbn [map].
      unfold block_commit, field. cbn [fst snd]. rewrite P.
      cbn [nth]. rewrite split_head. reflexivity.
    - constructor; [intros _; exact F|constructor]. }
  split; [exact R|]. split; [|apply before_comma_all].
  apply ParserClaims.same_result_return. rewrite <- R.
  apply parse_lines_simulation.
Qed.

Lemma header_fields_recovered_witness :
  count_char "," "abc123" = O
  /\ count_char "," "Mon Jan 1 2024" = O
  /\ startswith "abc123" "'" = false
  /\ last_char "fix the 'parser' now" <> Some "'"%char
  /\ result (code_churn.parse_lines
               [header_line "abc123" "Mon Jan 1 2024" "fix the 'parser' now"]
               empty_ext)
     = Return [{| code_churn.commit_id := "abc123";
                  code_churn.date := "Mon Jan 1 2024";
                  code_churn.message := "fix the 'parser' now";
                  code_churn.added_lines := 0;
                  code_churn.removed_lines := 0 |}].
Proof.
  assert (L : last_char "fix the 'parser' now" <> Some "'"%char)
    by (cbn; discriminate).
  split; [reflexivity|]. split; [reflexivity|]. split; [reflexivity|].
  split; [exact L|].
  exact (proj1 (header_fields_recovered sample_os "abc123" "Mon Jan 1 2024"
                  "fix the 'parser' now" empty_ext empty_ext
                  eq_refl eq_refl eq_refl L)).
Defined.

(** X2: a log whose lines hold no line boundary is read the same way when
    each line ends with LF and when each ends with CR LF: both parsers work
    on exactly those lines. *)
Theorem parse_git_log_line_ends os lines :
  Forall (fun l => plain l = true) lines ->
  code_churn.parse_git_log (unlines LF lines) = code_churn.parse_lines lines
  /\ code_churn.parse_git_log (unlines CR_LF lines)
     = code_churn.parse_lines lines
  /\ code_churn_v2.parse_git_log os (unlines LF lines)
     = code_churn_v2.parse_lines os lines
  /\ code_churn_v2.parse_git_log os (unlines CR_LF lines)
     = code_churn_v2.parse_lines os lines.
Proof.
  intros P. unfold code_churn.parse_git_log, code_churn_v2.parse_git_log.
  rewrite (splitlines_unlines_lf lines P), (splitlines_unlines_crlf lines P).
  repeat split.
Qed.

Lemma parse_git_log_line_ends_witness :
  Forall (fun l => plain l = true) (splitlines sample_log)
  /\ code_churn.parse_git_log (unlines CR_LF (splitlines sample_log))
     = code_churn.parse_lines (splitlines sample_log).
Proof.
  assert (P : Forall (fun l => plain l = true) (splitlines sample_log)).
  { let ls := eval vm_compute in (splitlines sample_log) in
    change (Forall (fun x => plain x = true) ls).
    repeat (apply Forall_cons; [reflexivity|]). apply Forall_nil. }
  split; [exact P|].
  exact (proj1 (proj2 (parse_git_log_line_ends sample_os _ P))).
Defined.

(** X3: on any text, each parser either returns the records of the blocks
    of the input or raises [IndexError]; it raises exactly when some header
    line has fewer than three comma-separated fields.  The two parsers agree
    up to [modified_lines]. *)
Theorem parse_git_log_blocks_or_index_error os text w1 w2 :
  result (code_churn.parse_git_log text w1)
  = (if well_formedb (splitlines text)
     then Return (map block_commit (blocks (splitlines text)))
     else Raise index_error)
  /\ same_result
       (result (code_churn_v2.parse_git_log os text w2))
       (if well_formedb (splitlines text)
        then Return (map block_commit (blocks (splitlines text)))
        else Raise index_error).
Proof.
  unfold code_churn.parse_git_log, code_churn_v2.parse_git_log.
  rewrite <- (parse_lines_result (splitlines text) w1).
  split; [reflexivity|]. apply parse_lines_simulation.
Qed.

(** X4: a log can be parsed in parts cut before a header: the records of
    the whole are the records of the part before followed by the records of
    the part from the header on, and the whole raises when either part
    does. *)
Theorem parse_lines_by_parts before h after w :
  is_header h = true ->
  result (code_churn.parse_lines (before ++ h :: after) w)
  = match result (code_churn.parse_lines before w),
          result (code_churn.parse_lines (h :: after) w) with
    | Return r1, Return r2 => Return (r1 ++ r2)
    | Raise e, _ => Raise e
    | Return _, Raise e => Raise e
    end.
Proof.
  intros H. rewrite !parse_lines_result.
  unfold well_formedb. rewrite forallb_app.
  fold (well_formedb before). fold (well_formedb (h :: after)).
  rewrite (blocks_app before h after H), map_app.
  destruct (well_formedb before), (well_formedb (h :: after)); reflexivity.
Qed.

Lemma parse_lines_by_parts_witness :
  is_header "'c0,Mon Jan 1 2024,first'" = true
  /\ result (code_churn.parse_lines
               (["'m1,Tue Jan 2 2024,merge topic'";
                 "10" ++ TAB ++ "2" ++ TAB ++ "a.py"]%string
                ++ "'c0,Mon Jan 1 2024,first'"
                   :: ["7" ++ TAB ++ "0" ++ TAB ++ "a.py"]%string) empty_ext)
     = Return
         [{| code_churn.commit_id := "m1"; code_churn.date := "Tue Jan 2 2024";
             code_churn.message := "merge topic";
             code_churn.added_lines := 10; code_churn.removed_lines := 2 |};
          {| code_churn.commit_id := "c0"; code_churn.date := "Mon Jan 1 2024";
             code_churn.message := "first"; code_churn.added_lines := 7;
             code_churn.removed_lines := 0 |}].
Proof.
  split; [reflexivity|].
  rewrite (parse_lines_by_parts
             ["'m1,Tue Jan 2 2024,merge topic'";
              "10" ++ TAB ++ "2" ++ TAB ++ "a.py"]%string
             "'c0,Mon Jan 1 2024,first'"
             ["7" ++ TAB ++ "0" ++ TAB ++ "a.py"]%string empty_ext eq_refl).
  reflexivity.
Defined.

Lemma own_stats_incl lines l : In l (own_stats lines) -> In l lines.
Proof.
  induction lines as [|x ls IH]; [contradiction|].
  cbn [own_stats]. destruct (is_header x); [contradiction|].
  intros [->|IN]; [left; reflexivity|right; apply IH; exact IN].
Qed.

Lemma blocks_incl lines b l :
  In b (blocks lines) -> In l (snd b) -> In l lines.
Proof.
  induction lines as [|x ls IH]; [contradiction|].
  cbn [blocks]. destruct (is_header x).
  - intros [<-|IN] S; right; [apply own_stats_incl; exact S|].
    apply IH; assumption.
  - intros IN S. right. apply IH; assumption.
Qed.

Lemma unsigned_counts_nonneg line :
  unsigned_counts line ->
  0 <= fst (stat_counts line) /\ 0 <= snd (stat_counts line).
Proof.
  unfold unsigned_counts, stat_counts. intros U.
  destruct (split "009" None line) as [|a [|r [|f [|x xs]]]];
    cbn [fst snd]; try lia.
  destruct (U a r f eq_refl) as [A R].
  split; apply ParserClaims.safe_int_nonneg; assumption.
Qed.

(** X18: when no count field of the input starts with a minus sign, every
    record that either parser returns has totals that are not negative. *)
Theorem unsigned_counts_give_nonnegative_totals os text w1 w2 :
  Forall unsigned_counts (splitlines text) ->
  (forall records,
     result (code_churn.parse_git_log text w1) = Return records ->
     Forall (fun c => 0 <= code_churn.added_lines c
                      /\ 0 <= code_churn.removed_lines c) records)
  /\ (forall records,
        result (code_churn_v2.parse_git_log os text w2) = Return records ->
        Forall (fun c => 0 <= code_churn_v2.added_lines c
                         /\ 0 <= code_churn_v2.removed_lines c) records).
Proof.
  intros U.
  assert (B : Forall (fun c => 0 <= code_churn.added_lines c
                               /\ 0 <= code_churn.removed_lines c)
                     (map block_commit (blocks (splitlines text)))).
  { apply Forall_forall. intros c IN. apply in_map_iff in IN.
    destruct IN as (b & <- & IN).
    cbn [block_commit code_churn.added_lines code_churn.removed_lines].
    split; apply ParserClaims.total_nonneg; apply Forall_forall; intros l S;
      apply unsigned_counts_nonneg;
      apply (proj1 (Forall_forall _ _) U);
      apply (blocks_incl _ b l IN S). }
  assert (R1 : forall records,
             result (code_churn.parse_git_log text w1) = Return records ->
             records = map block_commit (blocks (splitlines text))).
  { intros records R. unfold code_churn.parse_git_log in R.
    rewrite parse_lines_result in R.
    destruct (well_formedb (splitlines text)); [|discriminate].
    injection R as <-. reflexivity. }
  split.
  - intros records R. rewrite (R1 records R). exact B.
  - intros records R.
    pose proof (parse_lines_simulation os (splitlines text) w2 w1) as S.
    unfold code_churn_v2.parse_git_log in R. rewrite R in S.
    destruct (result (code_churn.parse_lines (splitlines text) w1))
      as [records1|e] eqn:E; [|contradiction].
    cbn [same_result] in S. rewrite (R1 records1 E) in S.
    rewrite <- S in B. rewrite Forall_map in B. exact B.
Qed.

Lemma unsigned_counts_give_nonnegative_totals_witness :
  Forall unsigned_counts (splitlines sample_log)
  /\ Forall (fun c => 0 <= code_churn.added_lines c
                      /\ 0 <= code_churn.removed_lines c)
            (map block_commit (blocks (splitlines sample_log))).
Proof.
  assert (U : Forall unsigned_counts (splitlines sample_log)).
  { let ls := eval vm_compute in (splitlines sample_log) in
    change (Forall unsigned_counts ls).
    repeat (apply Forall_cons;
            [intros a r f E; vm_compute in E; try discriminate;
             injection E as <- <- <-;
             split; intros rest N; vm_compute in N; discriminate|]).
    apply Forall_nil. }
  split; [exact U|].
  exact (proj1 (unsigned_counts_give_nonnegative_totals sample_os sample_log
                  empty_ext empty_ext U) _ eq_refl).
Defined.

End ParserExtras.

(** ** The parser of [code_churn_v2] as a sequence of stores *)

Module StoreFacts.
Import Py Eff Spec Notions Samples PyFacts EffFacts ParserFacts
       SimulationFacts PreambleFacts.

Ltac unwind R :=
  repeat first
    [ rewrite result_bind | rewrite world_bind | rewrite R
    | progress cbn [result world ret raise logging lift getitem nth_error] ].

Lemma store_each_one os h added removed w :
  exists c,
    result (code_churn_v2.store os h added removed w) = Return c
    /\ store_each os [(h, added, removed)] w
       = ([c], world (code_churn_v2.store os h added removed w)).
Proof.
  destruct (store_returns os h added removed w) as (c & R & _).
  exists c. split; [exact R|]. cbn [store_each]. rewrite R. reflexivity.
Qed.

Lemma store_each_cons os h added removed rest w c :
  result (code_churn_v2.store os h added removed w) = Return c ->
  store_each os ((h, added, removed) :: rest) w
  = (c :: fst (store_each os rest
                 (world (code_churn_v2.store os h added removed w))),
     snd (store_each os rest
            (world (code_churn_v2.store os h added removed w)))).
Proof.
  intros R. cbn [store_each]. rewrite R.
  destruct (store_each os rest _). reflexivity.
Qed.

Lemma store_each_app os xs ys :
  forall w,
    store_each os (xs ++ ys) w
    = (fst (store_each os xs w)
       ++ fst (store_each os ys (snd (store_each os xs w))),
       snd (store_each os ys (snd (store_each os xs w)))).
Proof.
  induction xs as [|[[h a] r] xs IH]; intros w.
  - cbn [app store_each fst snd]. destruct (store_each os ys w); reflexivity.
  - destruct (store_returns os h a r w) as (c & R & _).
    cbn [app]. rewrite !(store_each_cons os h a r _ w c R), IH.
    reflexivity.
Qed.

(** A header stores the commit that was open and opens its own. *)
Lemma loop_body_header_v2 os st line w :
  is_header line = true ->
  (3 <= comma_fields line)%nat ->
  result (code_churn_v2.loop_body os st line w)
  = Return {| code_churn_v2.commit_data :=
                code_churn_v2.commit_data st
                ++ fst (store_each os (pending_item st []) w);
              code_churn_v2.commit_info := Some (header_of_v2 line);
              code_churn_v2.total_added := 0;
              code_churn_v2.total_removed := 0 |}
  /\ world (code_churn_v2.loop_body os st line w)
     = snd (store_each os (pending_item st []) w).
Proof.
  intros H F. unfold is_header in H. unfold code_churn_v2.loop_body.
  rewrite H. destruct (header_parts line F) as [more P]. rewrite P.
  unfold pending_item, total. cbn [map fold_right]. rewrite !Z.add_0_r.
  destruct (code_churn_v2.commit_info st) as [h|].
  - destruct (store_each_one os h (code_churn_v2.total_added st)
                (code_churn_v2.total_removed st) w) as (c & R & ->).
    cbn [fst snd]. unwind R. split; reflexivity.
  - cbn [store_each fst snd]. rewrite app_nil_r. split; reflexivity.
Qed.

Lemma run_lines_v2 os lines :
  forall st w,
    well_formed lines ->
    let r := bind (for_each (code_churn_v2.loop_body os) lines st)
                  (code_churn_v2.finish os) w in
    let items := pending_item st (own_stats lines)
                 ++ map block_item (blocks lines) in
    result r = Return (code_churn_v2.commit_data st
                       ++ fst (store_each os items w))
    /\ world r = snd (store_each os items w).
Proof.
  induction lines as [|line rest IH]; intros st w WF; cbv zeta.
  - cbn [for_each]. rewrite bind_ret_l.
    unfold pending_item, code_churn_v2.finish, total.
    cbn [own_stats blocks map fold_right]. rewrite !Z.add_0_r, app_nil_r.
    destruct (code_churn_v2.commit_info st) as [h|].
    + destruct (store_each_one os h (code_churn_v2.total_added st)
                  (code_churn_v2.total_removed st) w) as (c & R & ->).
      cbn [fst snd]. unwind R. split; reflexivity.
    + cbn. rewrite app_nil_r. split; reflexivity.
  - rewrite for_each_cons_then, result_bind, world_bind.
    inversion WF as [|? ? Hl Hrest]; subst.
    cbn [own_stats blocks]. destruct (is_header line) eqn:E.
    + destruct (loop_body_header_v2 os st line w E (Hl eq_refl)) as [-> ->].
      cbn [map].
      match goal with
      | |- context [for_each _ rest ?s] =>
          destruct (IH s (snd (store_each os (pending_item st []) w)) Hrest)
            as [-> ->];
          change (pending_item s (own_stats rest))
            with [block_item (line, own_stats rest)]
      end.
      cbn [code_churn_v2.commit_data].
      change (pending_item st []
              ++ block_item (line, own_stats rest)
                 :: map block_item (blocks rest))
        with (pending_item st []
              ++ ([block_item (line, own_stats rest)]
                  ++ map block_item (blocks rest))).
      rewrite (store_each_app os (pending_item st []) _ w).
      cbn [fst snd]. rewrite app_assoc. split; reflexivity.
    + destruct (loop_body_stat_v2 os st line w E)
        as (st' & l & -> & D & I & A & R).
      cbn [result world].
      destruct (IH st' w Hrest) as [-> ->].
      rewrite D. unfold pending_item. rewrite I, A, R, !total_cons.
      destruct (code_churn_v2.commit_info st); rewrite ?Z.add_assoc;
        split; reflexivity.
Qed.

(** X5: on a log whose headers all have three fields, [parse_git_log] of
    [code_churn_v2] stores one commit per block, in the order of the log,
    each store starting from the outside state the one before left: its
    records and the outside state it leaves are those of that sequence of
    stores. *)
Theorem parse_git_log_stores_each_block os text w :
  well_formed (splitlines text) ->
  let r := code_churn_v2.parse_git_log os text w in
  let items := map block_item (blocks (splitlines text)) in
  result r = Return (fst (store_each os items w))
  /\ world r = snd (store_each os items w).
Proof.
  intros WF.
  exact (run_lines_v2 os (splitlines text) code_churn_v2.initial w WF).
Qed.

Lemma parse_git_log_stores_each_block_witness :
  well_formed (splitlines sample_log)
  /\ calls (world (code_churn_v2.parse_git_log sample_os sample_log empty_ext))
     = [code_churn_v2.merge_check_command "m1";
        code_churn_v2.merge_diff_command "m1";
        code_churn_v2.merge_check_command "c0";
        code_churn_v2.parent_diff_command "c0"]
  /\ result (code_churn_v2.parse_git_log sample_os sample_log empty_ext)
     = Return (fst (store_each sample_os
                      (map block_item (blocks (splitlines sample_log)))
                      empty_ext)).
Proof.
  assert (WF : well_formed (splitlines sample_log)).
  { let ls := eval vm_compute in (splitlines sample_log) in
    change (well_formed ls).
    repeat (apply Forall_cons;
            [intros E; vm_compute in E |- *; first [discriminate | lia]|]).
    apply Forall_nil. }
  split; [exact WF|].
  destruct (parse_git_log_stores_each_block sample_os sample_log empty_ext WF)
    as [R W].
  split; [rewrite W; reflexivity|exact R].
Defined.

End StoreFacts.

(** ** What the functions leave alone *)

Module FrameFacts.
Import Py Eff Spec Notions Samples PyFacts EffFacts ParserFacts
       SimulationFacts PreambleFacts StoreFacts.







End FrameFacts.

(** ** More on the report writer *)

Module WriterExtras.
Import Py Eff Spec Notions Samples EffFacts WriterFacts.









Section ByKey.
Context {A : Type} (key : A -> string).




End ByKey.










End WriterExtras.

(** ** More on the log fetch *)

Module FetchExtras.
Import Py Eff Spec Notions Samples EffFacts.

Lemma get_git_log_v2_cases os branch start_date end_date w :
  let command := code_churn_v2.git_log_command branch start_date end_date in
  let fetching :=
    (INFO, [Lit "Fetching git log for branch "; Fmt (VStr branch);
            Lit " from "; Fmt (VStr start_date); Lit " to ";
            Fmt (VStr end_date)]) in
  let failed e :=
    (ERROR, [Lit "Failed to fetch git log: "; Fmt (VStr (str e))]) in
  code_churn_v2.get_git_log os branch start_date end_date w
  = match run_process os (calls w) command with
    | Raise e => Run (Raise e) (fetched w command) [fetching; failed e]
    | Return p =>
        if returncode p =? 0 then
          match stdout p with
          | Return out =>
              Run (Return out) (fetched w command)
                  [fetching; (INFO, [Lit "Successfully fetched git log."])]
          | Raise e =>
              Run (Raise e) (fetched w command)
                  [fetching; (INFO, [Lit "Successfully fetched git log."]);
                   failed e]
          end
        else
          match stderr p with
          | Return err =>
              let e := Exc Exception ("Error running git command: " ++ err) in
              Run (Raise e) (fetched w command)
                  [fetching;
                   (ERROR, [Lit "Error running git command: "; Fmt (VStr err)]);
                   failed e]
          | Raise e => Run (Raise e) (fetched w command) [fetching; failed e]
          end
    end.
Proof.
  cbv zeta.
  unfold code_churn_v2.get_git_log, try_except, bind, subprocess_run, lift,
    logging, fetched.
  destruct (run_process os (calls w)
              (code_churn_v2.git_log_command branch start_date end_date))
    as [p|e]; [|reflexivity].
  destruct (returncode p =? 0); cbn [negb].
  - destruct (stdout p); reflexivity.
  - destruct (stderr p); reflexivity.
Qed.

Lemma get_git_log_cases os since_date w :
  let command := code_churn.git_log_command since_date in
  let fetching := (INFO, [Lit "Fetching git log since "; Fmt (VStr since_date)]) in
  let failed e :=
    (ERROR, [Lit "Failed to fetch git log: "; Fmt (VStr (str e))]) in
  code_churn.get_git_log os since_date w
  = match run_process os (calls w) command with
    | Raise e => Run (Raise e) (fetched w command) [fetching; failed e]
    | Return p =>
        if returncode p =? 0 then
          match stdout p with
          | Return out =>
              Run (Return out) (fetched w command)
                  [fetching; (INFO, [Lit "Successfully fetched git log."])]
          | Raise e =>
              Run (Raise e) (fetched w command)
                  [fetching; (INFO, [Lit "Successfully fetched git log."]);
                   failed e]
          end
        else
          match stderr p with
          | Return err =>
              let e := Exc Exception ("Error running git command: " ++ err) in
              Run (Raise e) (fetched w command)
                  [fetching;
                   (ERROR, [Lit "Error running git command: "; Fmt (VStr err)]);
                   failed e]
          | Raise e => Run (Raise e) (fetched w command) [fetching; failed e]
          end
    end.
Proof.
  cbv zeta.
  unfold code_churn.get_git_log, try_except, bind, subprocess_run, lift,
    logging, fetched.
  destruct (run_process os (calls w) (code_churn.git_log_command since_date))
    as [p|e]; [|reflexivity].
  destruct (returncode p =? 0); cbn [negb].
  - destruct (stdout p); reflexivity.
  - destruct (stderr p); reflexivity.
Qed.



(** X12: [get_git_log] never hides a failure, in either script.  When
    [subprocess.run] itself raises, the same exception is raised again after
    one logging call at level [ERROR]; when the command exits with a status
    other than 0 and its error output can be decoded, the exception raised
    carries that error output and the failure is logged twice at level
    [ERROR]. *)
Theorem get_git_log_failures os w :
  (forall branch start_date end_date e,
     run_process os (calls w)
       (code_churn_v2.git_log_command branch start_date end_date) = Raise e ->
     let r := code_churn_v2.get_git_log os branch start_date end_date w in
     result r = Raise e
     /\ filter is_error (logged r)
        = [(ERROR, [Lit "Failed to fetch git log: "; Fmt (VStr (str e))])])
  /\ (forall since_date e,
        run_process os (calls w) (code_churn.git_log_command since_date)
        = Raise e ->
        let r := code_churn.get_git_log os since_date w in
        result r = Raise e
        /\ filter is_error (logged r)
           = [(ERROR, [Lit "Failed to fetch git log: "; Fmt (VStr (str e))])])
  /\ (forall branch start_date end_date p err,
        run_process os (calls w)
          (code_churn_v2.git_log_command branch start_date end_date)
        = Return p ->
        returncode p <> 0 ->
        stderr p = Return err ->
        let r := code_churn_v2.get_git_log os branch start_date end_date w in
        let text := ("Error running git command: " ++ err)%string in
        result r = Raise (Exc Exception text)
        /\ filter is_error (logged r)
           = [(ERROR, [Lit "Error running git command: "; Fmt (VStr err)]);
              (ERROR, [Lit "Failed to fetch git log: "; Fmt (VStr text)])])
  /\ (forall since_date p err,
        run_process os (calls w) (code_churn.git_log_command since_date)
        = Return p ->
        returncode p <> 0 ->
        stderr p = Return err ->
        let r := code_churn.get_git_log os since_date w in
        let text := ("Error running git command: " ++ err)%string in
        result r = Raise (Exc Exception text)
        /\ filter is_error (logged r)
           = [(ERROR, [Lit "Error running git command: "; Fmt (VStr err)]);
              (ERROR, [Lit "Failed to fetch git log: "; Fmt (VStr text)])]).
Proof.
  split; [|split; [|split]].
  - intros branch start_date end_date e P. cbv zeta.
    rewrite get_git_log_v2_cases. cbv zeta. rewrite P. split; reflexivity.
  - intros since_date e P. cbv zeta.
    rewrite get_git_log_cases. cbv zeta. rewrite P. split; reflexivity.
  - intros branch start_date end_date p err P RC ERR. cbv zeta.
    apply Z.eqb_neq in RC.
    rewrite get_git_log_v2_cases. cbv zeta. rewrite P, RC, ERR.
    split; reflexivity.
  - intros since_date p err P RC ERR. cbv zeta. apply Z.eqb_neq in RC.
    rewrite get_git_log_cases. cbv zeta. rewrite P, RC, ERR.
    split; reflexivity.
Qed.

Lemma get_git_log_failures_witness :
  let p := {| returncode := 128; stdout := Return EmptyString;
              stderr := Return "fatal: not a git repository" |} in
  run_process broken_os (calls empty_ext)
    (code_churn.git_log_command "2024-01-01") = Return p
  /\ returncode p <> 0
  /\ stderr p = Return "fatal: not a git repository"
  /\ result (code_churn.get_git_log broken_os "2024-01-01" empty_ext)
     = Raise (Exc Exception
                  "Error running git command: fatal: not a git repository").
Proof.
  cbv zeta.
  assert (RC : returncode {| returncode := 128; stdout := Return EmptyString;
                             stderr := Return "fatal: not a git repository" |}
               <> 0) by (cbn; lia).
  split; [reflexivity|]. split; [exact RC|]. split; [reflexivity|].
  exact (proj1 (proj2 (proj2 (proj2 (get_git_log_failures broken_os empty_ext)))
                  "2024-01-01" _ "fatal: not a git repository"
                  eq_refl RC eq_refl)).
Defined.

End FetchExtras.

(** ** The scripts from end to end *)

Module MainExtras.
Import Py Eff Spec Notions Samples PyFacts EffFacts ParserFacts
       SimulationFacts PreambleFacts StoreFacts FrameFacts WriterFacts
       WriterExtras FetchExtras.






















End MainExtras.
